(** * Sellauth bot: the API layer, the restock form and the invoice command

    A shallow embedding of [bot.py].  Every coroutine of the source becomes a
    computation in a small monad that threads the trace of observable events
    (HTTP exchanges with the commerce API, replies sent on the Discord
    interaction) and may end in a Python exception.

    Conventions of the embedding.
    - A Python [str] is a Rocq [string]; each [ascii] stands for one code
      point below 256.  Code points from 256 on are not represented.
    - A parsed JSON body is a [json] value.  Python's [None] is JSON [null],
      so [JNull] plays both roles.  JSON numbers are integers here; numbers
      with a fractional part are not represented.
    - The commerce API answers every request; a connection that breaks before
      a response arrives is not represented.  Calls into the Discord library
      ([send_message], [defer], [followup.send]) are taken to succeed. *)

From Stdlib Require Import List String Ascii ZArith Lia Bool Arith Permutation.
From Stdlib Require Import DecimalString.
Import ListNotations.
Open Scope list_scope.
Open Scope string_scope.

(** ** Python values *)

#[local] Set Warnings "-register-all".

Inductive json : Type :=
| JNull
| JBool (b : bool)
| JNum (n : Z)
| JStr (s : string)
| JArr (items : list json)
| JObj (fields : list (string * json)).

(** The exception classes the modelled code can raise. *)
Inductive exn : Type := AttributeError | TypeError | KeyError.

Inductive result (A : Type) : Type :=
| Ok (a : A)
| Raise (e : exn).
Arguments Ok {A} a.
Arguments Raise {A} e.

(** [bool(v)]: what [if v] and [not v] test. *)
Definition truthy (v : json) : bool :=
  match v with
  | JNull => false
  | JBool b => b
  | JNum n => negb (n =? 0)%Z
  | JStr s => negb (String.eqb s "")
  | JArr l => match l with [] => false | _ => true end
  | JObj o => match o with [] => false | _ => true end
  end.

(** [isinstance(v, dict)] and [isinstance(v, list)]. *)
Definition is_dict (v : json) : bool :=
  match v with JObj _ => true | _ => false end.

Definition is_list (v : json) : bool :=
  match v with JArr _ => true | _ => false end.

(** Lookup in a dict kept as an association list in insertion order. *)
Fixpoint lookup (k : string) (o : list (string * json)) : option json :=
  match o with
  | [] => None
  | (k', v) :: rest => if String.eqb k k' then Some v else lookup k rest
  end.

(** [v.get(k, default)]: only a dict has the method. *)
Definition py_get (v : json) (k : string) (default : json) : result json :=
  match v with
  | JObj o => Ok (match lookup k o with Some x => x | None => default end)
  | _ => Raise AttributeError
  end.

(** [v[k]] with a string key. *)
Definition py_getitem (v : json) (k : string) : result json :=
  match v with
  | JObj o => match lookup k o with Some x => Ok x | None => Raise KeyError end
  | _ => Raise TypeError
  end.

Definition chars (s : string) : list string :=
  map (fun c => String c "") (list_ascii_of_string s).

(** The elements a [for] loop or [str.join] draws from [v]. *)
Definition py_iter (v : json) : result (list json) :=
  match v with
  | JArr l => Ok l
  | JObj o => Ok (map (fun kv => JStr (fst kv)) o)
  | JStr s => Ok (map JStr (chars s))
  | _ => Raise TypeError
  end.

(** [v[:n]].  Slicing a dict raises ([TypeError] up to CPython 3.11). *)
Definition py_slice_to (n : nat) (v : json) : result json :=
  match v with
  | JArr l => Ok (JArr (firstn n l))
  | JStr s => Ok (JStr (substring 0 n s))
  | _ => Raise TypeError
  end.

Fixpoint all_strs (l : list json) : option (list string) :=
  match l with
  | [] => Some []
  | JStr s :: rest =>
      match all_strs rest with
      | Some ss => Some (s :: ss)
      | None => None
      end
  | _ :: _ => None
  end.

(** [sep.join(v)]: every element has to be a [str]. *)
Definition py_join (sep : string) (v : json) : result string :=
  match py_iter v with
  | Ok l =>
      match all_strs l with
      | Some ss => Ok (String.concat sep ss)
      | None => Raise TypeError
      end
  | Raise e => Raise e
  end.

(** Decimal text of [len(...)], as an f-string prints it. *)
Definition str_of_nat (n : nat) : string :=
  NilZero.string_of_uint (Nat.to_uint n).

Definition str_of_Z (n : Z) : string :=
  NilZero.string_of_int (Z.to_int n).

(** ** Text: [str.splitlines] and [str.strip] *)

Definition code (c : ascii) : nat := nat_of_ascii c.

Definition one_of (n : nat) (l : list nat) : bool := existsb (Nat.eqb n) l.

(** Line boundaries of [str.splitlines] below code point 256 (a carriage
    return followed by a line feed counts once). *)
Definition is_linebreak (c : ascii) : bool :=
  one_of (code c) [10; 11; 12; 13; 28; 29; 30; 133]%nat.

(** Whitespace of [str.strip] and [str.isspace] below code point 256. *)
Definition is_space (c : ascii) : bool :=
  one_of (code c) [9; 10; 11; 12; 13; 28; 29; 30; 31; 32; 133; 160]%nat.

Definition is_cr (c : ascii) : bool := (code c =? 13)%nat.
Definition is_lf (c : ascii) : bool := (code c =? 10)%nat.

(** [splitlines_from cur s]: [cur] is the line read so far.  A last line is
    produced only when it is not empty, as Python does. *)
Fixpoint splitlines_from (cur : string) (s : string) : list string :=
  match s with
  | EmptyString => if String.eqb cur "" then [] else [cur]
  | String c rest =>
      if is_linebreak c then
        match rest with
        | String d rest' =>
            if is_cr c && is_lf d
            then cur :: splitlines_from "" rest'
            else cur :: splitlines_from "" rest
        | EmptyString => cur :: splitlines_from "" rest
        end
      else splitlines_from (cur ++ String c "") rest
  end.

Definition splitlines (s : string) : list string := splitlines_from "" s.

Fixpoint lstrip (s : string) : string :=
  match s with
  | EmptyString => ""
  | String c rest => if is_space c then lstrip rest else s
  end.

Fixpoint rstrip (s : string) : string :=
  match s with
  | EmptyString => ""
  | String c rest =>
      match rstrip rest with
      | EmptyString => if is_space c then "" else String c ""
      | r => String c r
      end
  end.

Definition strip (s : string) : string := rstrip (lstrip s).

(** [bool(s)] of a Python [str]. *)
Definition nonempty (s : string) : bool := negb (String.eqb s "").

(** ** The process, the network and the trace *)

(** What the process reads from its surroundings: the two environment
    variables used by the API layer ([os.getenv] gives [None] when one is
    unset) and Python's [repr] of lists and dicts, a builtin that is not part
    of the repository. *)
Record runtime : Type := {
  API_KEY : option string;
  SHOP_ID : option string;
  py_repr : json -> string
}.

Record request : Type := {
  method : string;
  url : string;
  req_headers : list (string * string);
  req_json : json
}.

(** A response: its status code and its body, [None] when the body is not
    valid JSON. *)
Record reply : Type := {
  status : Z;
  payload : option json
}.

(** The commerce API as the bot sees it: the answer to a request may depend
    on every request sent before it. *)
Definition network : Type := list request -> request -> reply.

Inductive colour : Type := Green | Blue.

Record field : Type := {
  name : string;
  value : string;
  inline : bool
}.

Record embed : Type := {
  title : string;
  color : colour;
  fields : list field
}.

(** [embed.add_field(name=..., value=..., inline=...)]; [inline] defaults to
    [True]. *)
Definition add_field (e : embed) (n v : string) (i : bool) : embed :=
  {| title := title e; color := color e;
     fields :=
       (fields e ++ [{| name := n; value := v; inline := i |}])%list |}.

Inductive event : Type :=
| Http (req : request) (rep : reply)
| SendMessage (content : string) (ephemeral : bool)
| Defer (ephemeral : bool)
| FollowupText (content : string)
| FollowupEmbed (e : embed).

Definition trace : Type := list event.

Fixpoint requests_of (t : trace) : list request :=
  match t with
  | [] => []
  | Http req _ :: rest => req :: requests_of rest
  | _ :: rest => requests_of rest
  end.

(** Number of API Client invocations recorded in a trace. *)
Definition http_calls (t : trace) : nat := List.length (requests_of t).

(** ** The monad of coroutines *)

Definition M (A : Type) : Type := trace -> result A * trace.

Definition ret {A : Type} (a : A) : M A := fun t => (Ok a, t).

Definition bind {A B : Type} (c : M A) (k : A -> M B) : M B :=
  fun t =>
    match c t with
    | (Ok a, t') => k a t'
    | (Raise e, t') => (Raise e, t')
    end.

Definition lift {A : Type} (r : result A) : M A := fun t => (r, t).

Definition emit (e : event) : M unit := fun t => (Ok tt, (t ++ [e])%list).

Notation "x <- c ;; k" := (bind c (fun x => k))
  (at level 61, c at next level, right associativity).
Notation "' pat <- c ;; k" := (bind c (fun x => match x with pat => k end))
  (at level 61, pat pattern, c at next level, right associativity).
Notation "c ;;; k" := (bind c (fun _ => k))
  (at level 61, right associativity).

(** [len(v)]. *)
Definition py_len (v : json) : result nat :=
  match v with
  | JArr l => Ok (List.length l)
  | JObj o => Ok (List.length o)
  | JStr s => Ok (String.length s)
  | _ => Raise TypeError
  end.

(** The line feed, "\n" in the source. *)
Definition newline : string := String (ascii_of_nat 10) "".

Section Bot.

Variable rt : runtime.
Variable net : network.

(** [str(v)], also what an f-string prints for [v]. *)
Definition py_str (v : json) : string :=
  match v with
  | JNull => "None"
  | JBool true => "True"
  | JBool false => "False"
  | JNum n => str_of_Z n
  | JStr s => s
  | _ => py_repr rt v
  end.

(** An environment variable inside an f-string. *)
Definition env_str (o : option string) : string :=
  match o with Some s => s | None => "None" end.

(** *** SELLAUTH API *)

Definition headers : list (string * string) :=
  [("Authorization", "Bearer " ++ env_str (API_KEY rt))].

(** One session, one request; a body that does not parse gives [None]. *)
Definition api_request (meth : string) (u : string) (body : json)
  : M (Z * json) :=
  fun t =>
    let req := {| method := meth; url := u;
                  req_headers := headers; req_json := body |} in
    let rep := net (requests_of t) req in
    let js := match payload rep with Some j => j | None => JNull end in
    (Ok (status rep, js), (t ++ [Http req rep])%list).

Definition shop_url : string :=
  "https://api.sellauth.com/v1/shops/" ++ env_str (SHOP_ID rt).

Definition get_invoice (invoice_id : string) : M json :=
  let url := shop_url ++ "/orders/" ++ invoice_id in
  '(status, js) <- api_request "GET" url JNull ;;
  if negb (status =? 200)%Z || negb (truthy js) then ret JNull
  else lift (py_get js "data" JNull).

Definition get_order (order_id : string) : M json :=
  let url := shop_url ++ "/orders/" ++ order_id in
  '(status, js) <- api_request "GET" url JNull ;;
  if truthy js then lift (py_get js "data" JNull) else ret JNull.

Definition list_products : M json :=
  let url := shop_url ++ "/products" in
  '(_, js) <- api_request "GET" url JNull ;;
  if is_dict js then lift (py_get js "data" (JArr [])) else ret (JArr []).

Definition get_variants (pid : string) : M json :=
  let url := shop_url ++ "/products/" ++ pid in
  '(_, js) <- api_request "GET" url JNull ;;
  data <- lift (py_get js "data" (JObj [])) ;;
  lift (py_get data "variants" (JArr [])).

Definition append_stock (pid vid : string) (items : list string)
  : M (Z * json) :=
  let url := shop_url ++ "/products/" ++ pid
             ++ "/deliverables/append/" ++ vid in
  api_request "PUT" url (JObj [("deliverables", JArr (map JStr items))]).

Definition get_stock (pid : string) (vid : json) : M (Z * json) :=
  let url := shop_url ++ "/products/" ++ pid
             ++ "/deliverables/" ++ py_str vid in
  api_request "GET" url JNull.

(** The body of [quick_stock]'s [for] loop, over the elements still to
    visit. *)
Fixpoint quick_stock_loop (pid : string) (variants : list json) (total : nat)
  : M nat :=
  match variants with
  | [] => ret total
  | v :: rest =>
      vid <- lift (py_getitem v "id") ;;
      '(_, js) <- get_stock pid vid ;;
      if truthy js && is_list js then
        n <- lift (py_len js) ;;
        quick_stock_loop pid rest (total + n)
      else quick_stock_loop pid rest total
  end.

Definition quick_stock (pid : string) : M nat :=
  variants <- get_variants pid ;;
  vs <- lift (py_iter variants) ;;
  quick_stock_loop pid vs 0.

(** *** UI COMPONENTS *)

(** A [RestockModal] when it is submitted: the product and variant it was
    built for and the text typed into its [stock] input. *)
Record RestockModal : Type := {
  modal_pid : string;
  modal_vid : string;
  stock_value : string
}.

(** [[x for x in text.splitlines() if x.strip()]]. *)
Definition restock_items (text : string) : list string :=
  filter (fun x => nonempty (strip x)) (splitlines text).

Definition on_submit (self : RestockModal) : M unit :=
  let items := restock_items (stock_value self) in
  append_stock (modal_pid self) (modal_vid self) items ;;;
  emit (SendMessage ("Added " ++ str_of_nat (List.length items) ++ " items")
                    true).

(** *** COMMANDS *)

(** The part of a [discord.Interaction] the commands read:
    [interaction.user.guild_permissions.administrator]. *)
Record Interaction : Type := {
  administrator : bool
}.

Definition invoice (interaction : Interaction) (invoice_id : string)
  : M unit :=
  if negb (administrator interaction) then
    emit (SendMessage "No permiso" true)
  else
    emit (Defer true) ;;;
    data <- get_invoice invoice_id ;;
    if negb (truthy data) then emit (FollowupText "Invoice no encontrada")
    else
      let e0 := {| title := "Invoice " ++ invoice_id; color := Green;
                   fields := [] |} in
      email <- lift (py_get data "email" (JStr "N/A")) ;;
      let e1 := add_field e0 "Email" (py_str email) true in
      price <- lift (py_get data "total_price" (JStr "N/A")) ;;
      let e2 := add_field e1 "Precio" (py_str price) true in
      st <- lift (py_get data "status" (JStr "N/A")) ;;
      let e3 := add_field e2 "Estado" (py_str st) true in
      product <- lift (py_get data "product_name" (JStr "N/A")) ;;
      let e4 := add_field e3 "Producto" (py_str product) true in
      deliverables <- lift (py_get data "deliverables" (JArr [])) ;;
      if truthy deliverables then
        first10 <- lift (py_slice_to 10 deliverables) ;;
        preview <- lift (py_join newline first10) ;;
        let e5 := add_field e4 "Keys / Deliverables"
                            ("```" ++ preview ++ "```") false in
        emit (FollowupEmbed e5)
      else emit (FollowupEmbed e4).

End Bot.

(** ** The other commands *)

(** A list comprehension [[f(x) for x in l]]: the elements in order, up to
    the first one that raises. *)
Fixpoint comprehension {A B : Type} (f : A -> result B) (l : list A)
  : result (list B) :=
  match l with
  | [] => Ok []
  | x :: rest =>
      match f x with
      | Ok y =>
          match comprehension f rest with
          | Ok ys => Ok (y :: ys)
          | Raise e => Raise e
          end
      | Raise e => Raise e
      end
  end.

Section Commands.

Variable rt : runtime.
Variable net : network.

(** [f"{p['name']} - ID: {p['id']}"]. *)
Definition product_line (p : json) : result string :=
  match py_getitem p "name" with
  | Ok n =>
      match py_getitem p "id" with
      | Ok i => Ok (py_str rt n ++ " - ID: " ++ py_str rt i)
      | Raise e => Raise e
      end
  | Raise e => Raise e
  end.

Definition product_list (interaction : Interaction) : M unit :=
  emit (Defer true) ;;;
  products <- list_products rt net ;;
  if negb (truthy products) then emit (FollowupText "No hay productos")
  else
    ps <- lift (py_iter products) ;;
    lines <- lift (comprehension product_line ps) ;;
    let text := String.concat newline lines in
    emit (FollowupText ("```" ++ text ++ "```")).

Definition stock (interaction : Interaction) (product_id : string)
  : M unit :=
  emit (Defer true) ;;;
  amount <- quick_stock rt net product_id ;;
  emit (FollowupText ("Stock disponible: " ++ str_of_nat amount)).

Definition order (interaction : Interaction) (order_id : string) : M unit :=
  emit (Defer true) ;;;
  data <- get_order rt net order_id ;;
  if negb (truthy data) then emit (FollowupText "Pedido no encontrado")
  else
    let e0 := {| title := "Order " ++ order_id; color := Blue;
                 fields := [] |} in
    email <- lift (py_get data "email" (JStr "N/A")) ;;
    let e1 := add_field e0 "Email" (py_str rt email) true in
    st <- lift (py_get data "status" (JStr "N/A")) ;;
    let e2 := add_field e1 "Estado" (py_str rt st) true in
    price <- lift (py_get data "total_price" (JStr "N/A")) ;;
    let e3 := add_field e2 "Precio" (py_str rt price) true in
    emit (FollowupEmbed e3).

End Commands.

(** ** The restock menus *)

(** A [discord.SelectOption]: its label, whatever the record holds under
    [name], and its value, a string. *)
Record SelectOption : Type := {
  label : json;
  option_value : string
}.

(** The single item of the view a handler sends: the product menu, or the
    variant menu with the product it was built for. *)
Inductive menu : Type :=
| ProductMenu (options : list SelectOption)
| VariantMenu (pid : string) (options : list SelectOption).

(** What the menu handlers send on the interaction, beside the events of
    the commands: a message carrying a view, the restock form, the panel. *)
Inductive ui_event : Type :=
| Plain (e : event)
| SendView (content : string) (item : menu) (ephemeral : bool)
| SendModal (pid vid : string)
| SendPanel (title : string).

Definition ui_trace : Type := list ui_event.

Fixpoint plain_of (u : ui_trace) : trace :=
  match u with
  | [] => []
  | Plain e :: rest => e :: plain_of rest
  | _ :: rest => plain_of rest
  end.

Definition U (A : Type) : Type := ui_trace -> result A * ui_trace.

Definition ubind {A B : Type} (c : U A) (k : A -> U B) : U B :=
  fun u =>
    match c u with
    | (Ok a, u') => k a u'
    | (Raise e, u') => (Raise e, u')
    end.

Definition ulift {A : Type} (r : result A) : U A := fun u => (r, u).

Definition uemit (e : ui_event) : U unit :=
  fun u => (Ok tt, (u ++ [e])%list).

(** A coroutine of the API layer awaited from a menu handler: it sees the
    exchanges made so far and the events it adds are added here. *)
Definition call {A : Type} (c : M A) : U A :=
  fun u =>
    let t := plain_of u in
    match c t with
    | (r, t') => (r, (u ++ map Plain (skipn (List.length t) t'))%list)
    end.

Notation "x <~ c ;; k" := (ubind c (fun x => k))
  (at level 61, c at next level, right associativity).

Section Menus.

Variable rt : runtime.
Variable net : network.

(** [discord.SelectOption(label=v["name"], value=str(v["id"]))]. *)
Definition select_option (v : json) : result SelectOption :=
  match py_getitem v "name" with
  | Ok n =>
      match py_getitem v "id" with
      | Ok i => Ok {| label := n; option_value := py_str rt i |}
      | Raise e => Raise e
      end
  | Raise e => Raise e
  end.

(** The [options] built by [ProductSelect.__init__] and
    [VariantSelect.__init__]. *)
Definition select_options (records : json) : result (list SelectOption) :=
  match py_iter records with
  | Ok l => comprehension select_option l
  | Raise e => Raise e
  end.

(** [VariantSelect.callback]; [vid] is [self.values[0]], the value of the
    option that was picked. *)
Definition VariantSelect_callback (pid vid : string) : U unit :=
  uemit (SendModal pid vid).

(** [ProductSelect.callback]; [pid] is [self.values[0]]. *)
Definition ProductSelect_callback (pid : string) : U unit :=
  variants <~ call (get_variants rt net pid) ;;
  options <~ ulift (select_options variants) ;;
  uemit (SendView "Select Variant" (VariantMenu pid options) true).

(** [StockPanel.restock], the handler of the Restock button. *)
Definition StockPanel_restock : U unit :=
  products <~ call (list_products rt net) ;;
  options <~ ulift (select_options products) ;;
  uemit (SendView "Select Product" (ProductMenu options) true).

Definition panel_stock : U unit := uemit (SendPanel "Stock Panel").

(** The form sent by [VariantSelect.callback], submitted with [text]. *)
Definition submit_form (pid vid text : string) : U unit :=
  call (on_submit rt net
          {| modal_pid := pid; modal_vid := vid; stock_value := text |}).

End Menus.

(** ** Vocabulary of the properties *)

(** A line that is empty or made of whitespace only. *)
Definition blank (s : string) : bool :=
  forallb is_space (list_ascii_of_string s).

(** The request [append_stock] hands to the API Client. *)
Definition append_request (rt : runtime) (pid vid : string)
  (items : list string) : request :=
  {| method := "PUT";
     url := shop_url rt ++ "/products/" ++ pid
            ++ "/deliverables/append/" ++ vid;
     req_headers := headers rt;
     req_json := JObj [("deliverables", JArr (map JStr items))] |}.

(** The request [get_stock] hands to the API Client. *)
Definition stock_request (rt : runtime) (pid : string) (vid : json)
  : request :=
  {| method := "GET";
     url := shop_url rt ++ "/products/" ++ pid
            ++ "/deliverables/" ++ py_str rt vid;
     req_headers := headers rt;
     req_json := JNull |}.

(** The request [get_invoice] and [get_order] hand to the API Client. *)
Definition order_request (rt : runtime) (id : string) : request :=
  {| method := "GET";
     url := shop_url rt ++ "/orders/" ++ id;
     req_headers := headers rt;
     req_json := JNull |}.

(** The request [get_variants] hands to the API Client. *)
Definition product_request (rt : runtime) (pid : string) : request :=
  {| method := "GET";
     url := shop_url rt ++ "/products/" ++ pid;
     req_headers := headers rt;
     req_json := JNull |}.

(** The parsed body [api_request] returns for a response. *)
Definition body_of (rep : reply) : json :=
  match payload rep with
  | Some j => j
  | None => JNull
  end.

(** What [get_invoice] makes of a response. *)
Definition invoice_data (rep : reply) : result json :=
  if negb (status rep =? 200)%Z || negb (truthy (body_of rep)) then Ok JNull
  else py_get (body_of rep) "data" JNull.

(** What [get_order] makes of a response. *)
Definition order_data (rep : reply) : result json :=
  if truthy (body_of rep) then py_get (body_of rep) "data" JNull
  else Ok JNull.

(** What [get_variants] makes of a response. *)
Definition variants_data (rep : reply) : result json :=
  match py_get (body_of rep) "data" (JObj []) with
  | Ok data => py_get data "variants" (JArr [])
  | Raise e => Raise e
  end.

(** The value stored under a key of a JSON object, if any. *)
Definition json_field (k : string) (v : json) : option json :=
  match v with
  | JObj o => lookup k o
  | _ => None
  end.

(** A server whose answer depends on the request alone. *)
Definition stateless (respond : request -> reply) : network :=
  fun _ r => respond r.

(** A server that gives one answer to everything. *)
Definition answering (r : reply) : network := fun _ _ => r.

(** What one deliverables response adds to [quick_stock]'s total: the length
    of its body when that is a list, nothing otherwise.  The status code
    takes no part. *)
Definition contribution (rep : reply) : nat :=
  match payload rep with
  | Some (JArr l) => List.length l
  | _ => 0
  end.

(** The identifier [v["id"]] of a variant record. *)
Definition variant_id (v : json) : json :=
  match py_getitem v "id" with
  | Ok i => i
  | Raise _ => JNull
  end.

Definition has_id (v : json) : Prop :=
  exists i, py_getitem v "id" = Ok i.

(** The sum [quick_stock] is expected to return for the variants [vs] of
    product [pid] against a stateless server. *)
Definition stock_total (rt : runtime) (respond : request -> reply)
  (pid : string) (vs : list json) : nat :=
  list_sum
    (map (fun v => contribution (respond (stock_request rt pid (variant_id v))))
         vs).

(** The contribution in the specification's words: a fetch that failed, by
    its status code or by its body, adds nothing. *)
Definition claimed_contribution (rep : reply) : nat :=
  if (status rep =? 200)%Z then contribution rep else 0.

Definition claimed_total (rt : runtime) (respond : request -> reply)
  (pid : string) (vs : list json) : nat :=
  list_sum
    (map (fun v =>
            claimed_contribution
              (respond (stock_request rt pid (variant_id v))))
         vs).

(** The exchanges of a run of requests sent one after the other, the
    history growing with each. *)
Fixpoint exchanges (net : network) (hist : list request)
  (reqs : list request) : list event :=
  match reqs with
  | [] => []
  | r :: rest =>
      Http r (net hist r) :: exchanges net (hist ++ [r])%list rest
  end.

Fixpoint replies_of (t : trace) : list reply :=
  match t with
  | [] => []
  | Http _ rep :: rest => rep :: replies_of rest
  | _ :: rest => replies_of rest
  end.

(** A runtime for the worked examples.  Its [py_repr] is never consulted:
    no example passes a list or a dict to [str]. *)
Definition sample_runtime : runtime :=
  {| API_KEY := Some "key"; SHOP_ID := Some "42"; py_repr := fun _ => "" |}.

(** The requests [quick_stock] sends for the variants [vs], in order. *)
Definition stock_requests (rt : runtime) (pid : string) (vs : list json)
  : list request :=
  map (fun v => stock_request rt pid (variant_id v)) vs.

(** The text [invoice] shows for a field of the record [d]:
    [str(data.get(key, "N/A"))]. *)
Definition field_text (rt : runtime) (d : list (string * json))
  (key : string) : string :=
  py_str rt (match lookup key d with Some x => x | None => JStr "N/A" end).

(** The fields [invoice] adds for the deliverables [ds] of a record: none
    when there are none, otherwise one block joining at most the first ten. *)
Definition preview_fields (ds : list string) : list field :=
  match ds with
  | [] => []
  | _ =>
      [{| name := "Keys / Deliverables";
          value := "```" ++ String.concat newline (firstn 10 ds) ++ "```";
          inline := false |}]
  end.

(** The four fields [invoice] always shows for a record. *)
Definition summary_fields (rt : runtime) (d : list (string * json))
  : list field :=
  [{| name := "Email"; value := field_text rt d "email"; inline := true |};
   {| name := "Precio"; value := field_text rt d "total_price";
      inline := true |};
   {| name := "Estado"; value := field_text rt d "status"; inline := true |};
   {| name := "Producto"; value := field_text rt d "product_name";
      inline := true |}].

(** A deliverables body of [n] items. *)
Definition keys (n : nat) : json := JArr (repeat (JStr "key") n).

Definition variant (id : Z) : json := JObj [("id", JNum id)].

Definition example_variants : list json := [variant 1; variant 2; variant 3].

(** A shop with one product, p1, listing [variants]; the variants 1, 2 and 3
    hold 3, 0 and 5 deliverables. *)
Definition example_shop (variants : list json) (r : request) : reply :=
  if String.eqb (url r) (url (product_request sample_runtime "p1")) then
    {| status := 200;
       payload := Some (JObj [("data", JObj [("variants", JArr variants)])]) |}
  else if String.eqb (url r) (url (stock_request sample_runtime "p1" (JNum 1)))
  then {| status := 200; payload := Some (keys 3) |}
  else if String.eqb (url r) (url (stock_request sample_runtime "p1" (JNum 2)))
  then {| status := 200; payload := Some (keys 0) |}
  else if String.eqb (url r) (url (stock_request sample_runtime "p1" (JNum 3)))
  then {| status := 200; payload := Some (keys 5) |}
  else {| status := 404; payload := None |}.

(** A shop whose product p1 has one variant, and whose deliverables endpoint
    answers 500 with a list of two items. *)
Definition failing_shop (r : request) : reply :=
  if String.eqb (url r) (url (product_request sample_runtime "p1")) then
    {| status := 200;
       payload := Some (JObj [("data", JObj [("variants", JArr [variant 1])])])
    |}
  else {| status := 500; payload := Some (keys 2) |}.

(** Fifty deliverables, KEY-1 to KEY-50. *)
Definition fifty_keys : list string :=
  map (fun n => "KEY-" ++ str_of_nat n) (seq 1 50).

Definition fifty_invoice : list (string * json) :=
  [("email", JStr "buyer@example.org"); ("total_price", JNum 12);
   ("status", JStr "completed"); ("product_name", JStr "Game key");
   ("deliverables", JArr (map JStr fifty_keys))].

(** The text of the worked example: KEY1, an empty line, KEY2, a line of
    three spaces, KEY3. *)
Definition example_form_text : string :=
  "KEY1" ++ newline ++ newline ++ "KEY2" ++ newline ++ "   " ++ newline
  ++ "KEY3".

(** A 200 whose body is not JSON. *)
Definition bare_ok : reply := {| status := 200; payload := None |}.

(** A form holding blank lines only, and one holding a padded key. *)
Definition blank_form : RestockModal :=
  {| modal_pid := "p1"; modal_vid := "v1";
     stock_value := newline ++ "   " ++ newline |}.

Definition padded_form : RestockModal :=
  {| modal_pid := "p1"; modal_vid := "v1"; stock_value := "  KEY1  " |}.

Definition member : Interaction := {| administrator := false |}.

Definition admin : Interaction := {| administrator := true |}.

(** A 200 carrying the invoice of fifty deliverables. *)
Definition fifty_reply : reply :=
  {| status := 200;
     payload := Some (JObj [("data", JObj fifty_invoice)]) |}.

(** ** Vocabulary of the further properties *)

(** A request that reads: a GET without a body, bearing the token. *)
Definition read_request (rt : runtime) (r : request) : Prop :=
  method r = "GET" /\ req_json r = JNull /\ req_headers r = headers rt.

(** [issues P c]: from any trace, [c] only adds events to it, and every
    request among the added events satisfies [P]. *)
Definition issues {A : Type} (P : request -> Prop) (c : M A) : Prop :=
  forall t,
    exists new, snd (c t) = (t ++ new)%list /\ Forall P (requests_of new).

(** The request [list_products] hands to the API Client. *)
Definition products_request (rt : runtime) : request :=
  {| method := "GET";
     url := shop_url rt ++ "/products";
     req_headers := headers rt;
     req_json := JNull |}.

(** The three fields [order] shows for a record. *)
Definition order_fields (rt : runtime) (d : list (string * json))
  : list field :=
  [{| name := "Email"; value := field_text rt d "email"; inline := true |};
   {| name := "Estado"; value := field_text rt d "status"; inline := true |};
   {| name := "Precio"; value := field_text rt d "total_price";
      inline := true |}].

(** [isinstance(v, str)]. *)
Definition is_str (v : json) : bool :=
  match v with JStr _ => true | _ => false end.

(** The name [v["name"]] of a product or variant record. *)
Definition record_name (v : json) : json :=
  match py_getitem v "name" with
  | Ok n => n
  | Raise _ => JNull
  end.

Definition has_name_and_id (v : json) : Prop :=
  (exists n, py_getitem v "name" = Ok n) /\ has_id v.

(** A dict without the key [k]. *)
Definition lacks_key (k : string) (v : json) : Prop :=
  exists o, v = JObj o /\ lookup k o = None.

(** The line [product_list] prints for a record with a name and an id. *)
Definition product_text (rt : runtime) (p : json) : string :=
  py_str rt (record_name p) ++ " - ID: " ++ py_str rt (variant_id p).

(** A string without any line boundary of [str.splitlines]. *)
Definition single_line (s : string) : bool :=
  forallb (fun c => negb (is_linebreak c)) (list_ascii_of_string s).

(** What [splitlines_from] still has to read after the line break [c]. *)
Definition after_break (c : ascii) (rest : string) : string :=
  match rest with
  | String d rest' => if is_cr c && is_lf d then rest' else rest
  | EmptyString => rest
  end.

(** The option a menu shows for a record with a name and an id. *)
Definition option_of (rt : runtime) (v : json) : SelectOption :=
  {| label := record_name v; option_value := py_str rt (variant_id v) |}.

(** The restock flow from the button to the submitted form, [pid] and [vid]
    being the values picked in the two menus. *)
Definition restock_flow (rt : runtime) (net : network)
  (pid vid text : string) : U unit :=
  _ <~ StockPanel_restock rt net ;;
  _ <~ ProductSelect_callback rt net pid ;;
  _ <~ VariantSelect_callback pid vid ;;
  submit_form rt net pid vid text.

(** A named record, as the API lists products and variants. *)
Definition named (id : Z) (n : string) : json :=
  JObj [("id", JNum id); ("name", JStr n)].

(** A body that is a JSON object without [data]. *)
Definition not_found : reply :=
  {| status := 404; payload := Some (JObj [("message", JStr "Not Found")]) |}.

(** A 404 that nevertheless carries the invoice of fifty deliverables. *)
Definition fifty_reply_404 : reply :=
  {| status := 404;
     payload := Some (JObj [("data", JObj fifty_invoice)]) |}.

(** A 200 whose record has a number among its deliverables. *)
Definition odd_invoice : list (string * json) :=
  [("email", JStr "buyer@example.org");
   ("deliverables", JArr [JStr "KEY-1"; JNum 5])].

Definition odd_reply : reply :=
  {| status := 200; payload := Some (JObj [("data", JObj odd_invoice)]) |}.

(** Variants of which the second has no id. *)
Definition broken_variants : list json :=
  [variant 1; JObj [("name", JStr "Deluxe")]; variant 3].

(** A catalogue of two products, and one whose second record has no name. *)
Definition catalogue : list json := [named 7 "Game"; named 8 "Card"].

Definition broken_catalogue : list json :=
  [named 7 "Game"; JObj [("id", JNum 8)]].

Definition listing (ps : list json) : reply :=
  {| status := 200; payload := Some (JObj [("data", JArr ps)]) |}.

(** A shop that lists [catalogue]; its product 7 has the variants Standard
    and Deluxe. *)
Definition flow_variants : list json := [named 1 "Standard"; named 2 "Deluxe"].

Definition flow_shop (r : request) : reply :=
  if String.eqb (url r) (url (products_request sample_runtime)) then
    listing catalogue
  else if String.eqb (url r) (url (product_request sample_runtime "7")) then
    {| status := 200;
       payload :=
         Some (JObj [("data", JObj [("variants", JArr flow_variants)])]) |}
  else bare_ok.

(** ** Text lemmas *)

Lemma rstrip_empty_iff_blank (s : string) :
  rstrip s = "" <-> blank s = true.
Proof.
  unfold blank. induction s as [| c rest IH]; simpl.
  - tauto.
  - destruct (rstrip rest) eqn:Hr.
    + destruct (is_space c); simpl.
      * rewrite <- IH. tauto.
      * split; discriminate.
    + split; [discriminate |].
      intros H. apply andb_true_iff in H. destruct H as [_ H].
      apply IH in H. discriminate.
Qed.

Lemma blank_lstrip (s : string) : blank (lstrip s) = blank s.
Proof.
  unfold blank. induction s as [| c rest IH]; simpl.
  - reflexivity.
  - destruct (is_space c) eqn:Hc; simpl.
    + exact IH.
    + rewrite Hc. reflexivity.
Qed.

Lemma strip_truth (s : string) : nonempty (strip s) = negb (blank s).
Proof.
  unfold nonempty, strip.
  destruct (blank s) eqn:Hb.
  - rewrite <- blank_lstrip in Hb. apply rstrip_empty_iff_blank in Hb.
    rewrite Hb. reflexivity.
  - destruct (String.eqb (rstrip (lstrip s)) "") eqn:He; [| reflexivity].
    apply String.eqb_eq in He. apply rstrip_empty_iff_blank in He.
    rewrite blank_lstrip in He. congruence.
Qed.

Lemma restock_items_In (text x : string) :
  In x (restock_items text) <->
  In x (splitlines text) /\ blank x = false.
Proof.
  unfold restock_items. rewrite filter_In, strip_truth.
  destruct (blank x); simpl; intuition congruence.
Qed.

Lemma forallb_false_exists {A : Type} (f : A -> bool) (l : list A) :
  forallb f l = false <-> exists x, In x l /\ f x = false.
Proof.
  induction l as [| a l IH]; simpl.
  - split; [discriminate | intros [x [[] _]]].
  - destruct (f a) eqn:Ha; simpl.
    + rewrite IH. split.
      * intros [x [Hin Hx]]. exists x. auto.
      * intros [x [[Heq | Hin] Hx]]; [congruence | exists x; auto].
    + split; [intros _; exists a; auto | reflexivity].
Qed.

Lemma blank_false_char (s : string) :
  blank s = false <->
  exists c, In c (list_ascii_of_string s) /\ is_space c = false.
Proof. unfold blank. apply forallb_false_exists. Qed.

(** ** Traces *)

Local Open Scope list_scope.

Lemma requests_of_app (t u : trace) :
  requests_of (t ++ u) = (requests_of t ++ requests_of u)%list.
Proof.
  induction t as [| e t IH]; simpl; [reflexivity |].
  destruct e; simpl; rewrite IH; reflexivity.
Qed.

Lemma http_calls_app (t u : trace) :
  http_calls (t ++ u) = http_calls t + http_calls u.
Proof. unfold http_calls. rewrite requests_of_app. apply length_app. Qed.

(** ** The API layer, run *)

Section Runs.

Variable rt : runtime.
Variable net : network.

Lemma api_request_run (meth u : string) (body : json) (t : trace) :
  let req := {| method := meth; url := u;
                req_headers := headers rt; req_json := body |} in
  let rep := net (requests_of t) req in
  api_request rt net meth u body t =
  (Ok (status rep, match payload rep with Some j => j | None => JNull end),
   (t ++ [Http req rep])%list).
Proof. reflexivity. Qed.

Lemma append_stock_run (pid vid : string) (items : list string) (t : trace) :
  let req := append_request rt pid vid items in
  let rep := net (requests_of t) req in
  append_stock rt net pid vid items t =
  (Ok (status rep, match payload rep with Some j => j | None => JNull end),
   (t ++ [Http req rep])%list).
Proof. reflexivity. Qed.

Lemma on_submit_run (self : RestockModal) (t : trace) :
  let items := restock_items (stock_value self) in
  let req := append_request rt (modal_pid self) (modal_vid self) items in
  on_submit rt net self t =
  (Ok tt,
   t ++ [Http req (net (requests_of t) req);
         SendMessage
           ("Added " ++ str_of_nat (List.length items) ++ " items")%string
           true]).
Proof.
  intros items req. unfold on_submit, bind, emit.
  rewrite append_stock_run. rewrite <- app_assoc. reflexivity.
Qed.

End Runs.

(** ** The restock form *)

(** C6.  The items of a restock submission are the lines of the submitted
    text, in order, without the lines that are empty or hold whitespace only;
    these items are what the append request carries and what the
    confirmation counts.  The example text gives exactly KEY1, KEY2, KEY3. *)
Theorem restock_drops_blank_lines
  (rt : runtime) (net : network) (self : RestockModal) (t : trace) :
  let kept :=
    filter (fun x => negb (blank x)) (splitlines (stock_value self)) in
  restock_items (stock_value self) = kept /\
  (exists rep,
     on_submit rt net self t =
     (Ok tt,
      t ++ [Http (append_request rt (modal_pid self) (modal_vid self) kept)
                 rep;
            SendMessage
              ("Added " ++ str_of_nat (List.length kept) ++ " items")%string
              true])) /\
  restock_items example_form_text = ["KEY1"; "KEY2"; "KEY3"].
Proof.
  intros kept.
  assert (Hk : restock_items (stock_value self) = kept).
  { unfold restock_items, kept. apply filter_ext. intros x.
    apply strip_truth. }
  split; [exact Hk |]. split; [| reflexivity].
  rewrite on_submit_run, Hk. eexists. reflexivity.
Qed.

(** C7.  Whatever the API answers to the append request, any status with
    any body, the handler completes and confirms with "Added N items", N
    being the number of non-blank lines submitted.  The answer is recorded in
    the trace and read nowhere. *)
Theorem restock_confirms_whatever_the_answer
  (rt : runtime) (self : RestockModal) (t : trace) :
  let items := restock_items (stock_value self) in
  let req := append_request rt (modal_pid self) (modal_vid self) items in
  let confirmation :=
    SendMessage ("Added " ++ str_of_nat (List.length items) ++ " items")%string
                true in
  (forall net : network,
     on_submit rt net self t =
     (Ok tt, t ++ [Http req (net (requests_of t) req); confirmation])) /\
  (forall (st : Z) (body : option json),
     let rep := {| status := st; payload := body |} in
     on_submit rt (answering rep) self t =
     (Ok tt, t ++ [Http req rep; confirmation])).
Proof.
  intros items req confirmation. split.
  - intros net. apply on_submit_run.
  - intros st body rep. rewrite on_submit_run. reflexivity.
Qed.

(** C9.  When no line of the submitted text survives the filter, the handler
    still sends the append request, once, with an empty list of items, and
    confirms with a count of zero. *)
Theorem restock_sends_empty_batch
  (rt : runtime) (net : network) (self : RestockModal) (t : trace) :
  restock_items (stock_value self) = [] ->
  let req := append_request rt (modal_pid self) (modal_vid self) [] in
  on_submit rt net self t =
  (Ok tt,
   t ++ [Http req (net (requests_of t) req);
         SendMessage "Added 0 items" true]) /\
  method req = "PUT" /\
  json_field "deliverables" (req_json req) = Some (JArr []) /\
  http_calls (snd (on_submit rt net self t)) = http_calls t + 1.
Proof.
  intros Hnil req. rewrite on_submit_run, Hnil.
  repeat split. simpl snd. rewrite http_calls_app. reflexivity.
Qed.

Lemma restock_sends_empty_batch_witness :
  restock_items (stock_value blank_form) = [] /\
  on_submit sample_runtime (answering bare_ok) blank_form [] =
  (Ok tt,
   [Http (append_request sample_runtime "p1" "v1" []) bare_ok;
    SendMessage "Added 0 items" true]) /\
  http_calls (snd (on_submit sample_runtime (answering bare_ok) blank_form []))
  = 1.
Proof.
  split; [reflexivity |].
  pose proof (restock_sends_empty_batch sample_runtime (answering bare_ok)
                blank_form [] eq_refl) as [Hrun [_ [_ Hcalls]]].
  split; [exact Hrun | exact Hcalls].
Defined.

(** C10.  A line of the submitted text that holds a character other than
    whitespace is sent as it stands, with the whitespace around it: the item
    list of the append request contains that very line, and every item of
    the list is one of the lines of the text, unchanged. *)
Theorem restock_keeps_lines_verbatim
  (rt : runtime) (net : network) (self : RestockModal) (t : trace)
  (line : string) :
  In line (splitlines (stock_value self)) ->
  (exists c, In c (list_ascii_of_string line) /\ is_space c = false) ->
  exists sent rep confirmation,
    on_submit rt net self t =
    (Ok tt,
     t ++ [Http (append_request rt (modal_pid self) (modal_vid self) sent) rep;
           confirmation]) /\
    In line sent /\
    (forall x, In x sent -> In x (splitlines (stock_value self))).
Proof.
  intros Hin Hc. apply blank_false_char in Hc.
  rewrite on_submit_run.
  eexists. eexists. eexists. split; [reflexivity |]. split.
  - apply restock_items_In. split; assumption.
  - intros x Hx. apply restock_items_In in Hx. tauto.
Qed.

Lemma restock_keeps_lines_verbatim_witness :
  splitlines (stock_value padded_form) = ["  KEY1  "] /\
  restock_items (stock_value padded_form) = ["  KEY1  "] /\
  exists sent rep confirmation,
    on_submit sample_runtime (answering bare_ok) padded_form [] =
    (Ok tt,
     [Http (append_request sample_runtime "p1" "v1" sent) rep; confirmation])
    /\ In "  KEY1  " sent
    /\ (forall x, In x sent -> In x (splitlines (stock_value padded_form))).
Proof.
  split; [reflexivity |]. split; [reflexivity |].
  apply (restock_keeps_lines_verbatim sample_runtime (answering bare_ok)
           padded_form [] "  KEY1  ").
  - left. reflexivity.
  - exists "K"%char. split; [| reflexivity].
    right. right. left. reflexivity.
Defined.

(** ** The append request *)

(** C3 as amended.  [append_stock] sends one PUT to the deliverables-append
    endpoint of the variant; the JSON body holds the items, as strings and in
    order, under the key "deliverables", and holds no key "items". *)
Theorem append_stock_body
  (rt : runtime) (net : network) (pid vid : string) (items : list string)
  (t : trace) :
  exists req rep,
    snd (append_stock rt net pid vid items t) = t ++ [Http req rep] /\
    method req = "PUT" /\
    url req = (shop_url rt ++ "/products/" ++ pid
               ++ "/deliverables/append/" ++ vid)%string /\
    req_json req = JObj [("deliverables", JArr (map JStr items))] /\
    json_field "items" (req_json req) = None.
Proof.
  rewrite append_stock_run. simpl snd.
  eexists. eexists. split; [reflexivity |]. repeat split.
Qed.

(** C3, the claim as written fails: for the items A, B, C the one body that
    is sent is not the object with the key "items", and has no such key. *)
Lemma append_stock_body_not_items :
  map req_json
      (requests_of
         (snd (append_stock sample_runtime (answering bare_ok)
                 "p1" "v1" ["A"; "B"; "C"] [])))
  <> [JObj [("items", JArr [JStr "A"; JStr "B"; JStr "C"])]] /\
  map (json_field "items")
      (map req_json
         (requests_of
            (snd (append_stock sample_runtime (answering bare_ok)
                    "p1" "v1" ["A"; "B"; "C"] []))))
  = [None].
Proof. split; [discriminate | reflexivity]. Qed.

(** ** The invoice command *)

(** C5.  For a caller who is not an administrator, [invoice] answers "No
    permiso" and does nothing else: the trace gains that one message and no
    HTTP exchange. *)
Theorem invoice_denied_without_http
  (rt : runtime) (net : network) (interaction : Interaction)
  (invoice_id : string) (t : trace) :
  administrator interaction = false ->
  invoice rt net interaction invoice_id t =
  (Ok tt, t ++ [SendMessage "No permiso" true]) /\
  http_calls (snd (invoice rt net interaction invoice_id t)) = http_calls t.
Proof.
  intros Hadm. unfold invoice. rewrite Hadm. simpl negb. cbv iota.
  unfold emit. split; [reflexivity |].
  simpl snd. rewrite http_calls_app. unfold http_calls at 2. simpl. lia.
Qed.

Lemma invoice_denied_without_http_witness :
  administrator member = false /\
  invoice sample_runtime (answering bare_ok) member "inv-1" [] =
  (Ok tt, [SendMessage "No permiso" true]) /\
  http_calls (snd (invoice sample_runtime (answering bare_ok) member
                     "inv-1" [])) = 0.
Proof.
  split; [reflexivity |].
  apply (invoice_denied_without_http sample_runtime (answering bare_ok)
           member "inv-1" []).
  reflexivity.
Defined.

(** ** The read operations, run *)

Section Reads.

Variable rt : runtime.
Variable net : network.

Lemma get_invoice_run (id : string) (t : trace) :
  let rep := net (requests_of t) (order_request rt id) in
  get_invoice rt net id t =
  (invoice_data rep, t ++ [Http (order_request rt id) rep]).
Proof.
  intros rep. unfold get_invoice, bind. rewrite api_request_run.
  fold (order_request rt id). fold rep. fold (body_of rep).
  unfold invoice_data.
  destruct (negb (status rep =? 200)%Z || negb (truthy (body_of rep)));
    reflexivity.
Qed.

Lemma get_order_run (id : string) (t : trace) :
  let rep := net (requests_of t) (order_request rt id) in
  get_order rt net id t =
  (order_data rep, t ++ [Http (order_request rt id) rep]).
Proof.
  intros rep. unfold get_order, bind. rewrite api_request_run.
  fold (order_request rt id). fold rep. fold (body_of rep).
  unfold order_data.
  destruct (truthy (body_of rep)); reflexivity.
Qed.

Lemma get_variants_run (pid : string) (t : trace) :
  let rep := net (requests_of t) (product_request rt pid) in
  get_variants rt net pid t =
  (variants_data rep, t ++ [Http (product_request rt pid) rep]).
Proof.
  intros rep. unfold get_variants, bind. rewrite api_request_run.
  fold (product_request rt pid). fold rep. fold (body_of rep).
  unfold variants_data, lift.
  destruct (py_get (body_of rep) "data" (JObj [])); reflexivity.
Qed.

Lemma get_stock_run (pid : string) (vid : json) (t : trace) :
  let rep := net (requests_of t) (stock_request rt pid vid) in
  get_stock rt net pid vid t =
  (Ok (status rep, body_of rep), t ++ [Http (stock_request rt pid vid) rep]).
Proof. reflexivity. Qed.

(** With a 200 the two lookups of an order coincide, exceptions included. *)
Lemma get_order_agrees_on_200 (id : string) (t : trace) :
  status (net (requests_of t) (order_request rt id)) = 200%Z ->
  get_order rt net id t = get_invoice rt net id t.
Proof.
  intros H. rewrite get_order_run, get_invoice_run.
  unfold order_data, invoice_data. rewrite H. simpl.
  destruct (truthy (body_of _)); reflexivity.
Qed.

End Reads.

(** C1.  A product response whose body is not JSON, or is JSON null, makes
    [get_variants] raise [AttributeError] whatever the status code, where
    [list_products] returns the empty list for the same response. *)
Theorem get_variants_raises_on_absent_body
  (rt : runtime) (pid : string) (st : Z) (t : trace) :
  let absent := {| status := st; payload := None |} in
  let null := {| status := st; payload := Some JNull |} in
  get_variants rt (answering absent) pid t =
  (Raise AttributeError, t ++ [Http (product_request rt pid) absent]) /\
  get_variants rt (answering null) pid t =
  (Raise AttributeError, t ++ [Http (product_request rt pid) null]) /\
  fst (list_products rt (answering absent) t) = Ok (JArr []) /\
  fst (quick_stock rt (answering absent) pid t) = Raise AttributeError.
Proof.
  intros absent null. split; [| split; [| split]].
  - rewrite get_variants_run. reflexivity.
  - rewrite get_variants_run. reflexivity.
  - reflexivity.
  - unfold quick_stock, bind. rewrite get_variants_run. reflexivity.
Qed.

(** C2.  On a 404 whose body carries a [data] field, [get_invoice] returns
    [None] and [get_order] returns the field; on a 404 whose body is a JSON
    string, [get_invoice] returns [None] and [get_order] raises.  The two
    send the same request and read the same response, and only [get_invoice]
    looks at the status. *)
Theorem get_order_ignores_status
  (rt : runtime) (id : string) (d : json) (t : trace) :
  let rep := {| status := 404; payload := Some (JObj [("data", d)]) |} in
  let err := {| status := 404; payload := Some (JStr "Not Found") |} in
  get_invoice rt (answering rep) id t =
  (Ok JNull, t ++ [Http (order_request rt id) rep]) /\
  get_order rt (answering rep) id t =
  (Ok d, t ++ [Http (order_request rt id) rep]) /\
  get_invoice rt (answering err) id t =
  (Ok JNull, t ++ [Http (order_request rt id) err]) /\
  get_order rt (answering err) id t =
  (Raise AttributeError, t ++ [Http (order_request rt id) err]).
Proof.
  intros rep err. rewrite !get_invoice_run, !get_order_run.
  split; [reflexivity |]. split; [reflexivity |]. split; reflexivity.
Qed.

(** ** The deliverables preview *)

Lemma all_strs_map_JStr (l : list string) : all_strs (map JStr l) = Some l.
Proof.
  induction l as [| s l IH]; simpl; [reflexivity | rewrite IH; reflexivity].
Qed.

Lemma lookup_some_truthy (k : string) (o : list (string * json)) (v : json) :
  lookup k o = Some v -> truthy (JObj o) = true.
Proof. destruct o; simpl; [discriminate | reflexivity]. Qed.

(** C8.  For an administrator and an invoice record found with a 200, whose
    deliverables are a list of strings, the embed that is sent shows the four
    summary fields and then, when there is any deliverable, one block that
    joins the first ten deliverables, or all of them when there are fewer,
    and nothing beyond. *)
Theorem invoice_preview_first_ten
  (rt : runtime) (net : network) (interaction : Interaction)
  (invoice_id : string) (t : trace)
  (o d : list (string * json)) (ds : list string) :
  administrator interaction = true ->
  net (requests_of t) (order_request rt invoice_id) =
    {| status := 200; payload := Some (JObj o) |} ->
  lookup "data" o = Some (JObj d) ->
  d <> [] ->
  py_get (JObj d) "deliverables" (JArr []) = Ok (JArr (map JStr ds)) ->
  let rep := {| status := 200; payload := Some (JObj o) |} in
  invoice rt net interaction invoice_id t =
  (Ok tt,
   t ++ [Defer true; Http (order_request rt invoice_id) rep;
         FollowupEmbed
           {| title := ("Invoice " ++ invoice_id)%string; color := Green;
              fields := summary_fields rt d ++ preview_fields ds |}]) /\
  List.length (preview_fields ds) <= 1 /\
  List.length (firstn 10 ds) = Nat.min 10 (List.length ds) /\
  List.length (firstn 10 ds) <= 10.
Proof.
  intros Hadm Hrep Hdata Hne Hdel rep.
  split;
    [| split; [destruct ds; simpl; lia
              | split; [apply length_firstn | rewrite length_firstn; lia]]].
  unfold invoice. rewrite Hadm. cbv [negb].
  unfold bind at 1. unfold emit at 1. unfold bind at 1.
  rewrite get_invoice_run, requests_of_app. simpl (requests_of [Defer true]).
  rewrite app_nil_r, Hrep. fold rep.
  assert (Hinv : invoice_data rep = Ok (JObj d)).
  { unfold invoice_data, body_of, rep. cbn [status payload].
    rewrite (lookup_some_truthy _ _ _ Hdata). simpl.
    rewrite Hdata. reflexivity. }
  rewrite Hinv.
  assert (Htd : truthy (JObj d) = true).
  { destruct d; [contradiction | reflexivity]. }
  rewrite Htd. cbv [negb].
  unfold bind, lift. rewrite Hdel. cbn [py_get].
  destruct ds as [| k ds'].
  - cbn [map truthy]. unfold emit, add_field. cbn [fields title color].
    rewrite <- !app_assoc. reflexivity.
  - cbn [truthy map].
    change (JStr k :: map JStr ds') with (map JStr (k :: ds')).
    unfold py_slice_to, py_join, py_iter.
    rewrite firstn_map, all_strs_map_JStr.
    unfold emit, add_field. cbn [fields title color].
    rewrite <- !app_assoc. reflexivity.
Qed.

Lemma invoice_preview_first_ten_witness :
  administrator admin = true /\
  py_get (JObj fifty_invoice) "deliverables" (JArr []) =
    Ok (JArr (map JStr fifty_keys)) /\
  List.length fifty_keys = 50 /\
  invoice sample_runtime (answering fifty_reply) admin "inv-1" [] =
  (Ok tt,
   [Defer true; Http (order_request sample_runtime "inv-1") fifty_reply;
    FollowupEmbed
      {| title := "Invoice inv-1"; color := Green;
         fields :=
           [{| name := "Email"; value := "buyer@example.org";
               inline := true |};
            {| name := "Precio"; value := "12"; inline := true |};
            {| name := "Estado"; value := "completed"; inline := true |};
            {| name := "Producto"; value := "Game key"; inline := true |};
            {| name := "Keys / Deliverables";
               value :=
                 ("```"
                  ++ String.concat newline
                       ["KEY-1"; "KEY-2"; "KEY-3"; "KEY-4"; "KEY-5";
                        "KEY-6"; "KEY-7"; "KEY-8"; "KEY-9"; "KEY-10"]
                  ++ "```")%string;
               inline := false |}] |}]).
Proof.
  split; [reflexivity |]. split; [reflexivity |]. split; [reflexivity |].
  apply (invoice_preview_first_ten sample_runtime (answering fifty_reply)
           admin "inv-1" [] [("data", JObj fifty_invoice)]
           fifty_invoice fifty_keys);
    try reflexivity.
  discriminate.
Defined.

(** ** The stock total *)

Lemma contribution_body (rep : reply) :
  (if truthy (body_of rep) && is_list (body_of rep)
   then match py_len (body_of rep) with Ok n => Some n | Raise _ => None end
   else Some 0) = Some (contribution rep).
Proof.
  unfold contribution, body_of.
  destruct (payload rep) as [[| b | n | s | l | o] |]; simpl;
    try reflexivity; try (rewrite andb_false_r; reflexivity).
  destruct l; reflexivity.
Qed.

Lemma replies_of_app (t u : trace) :
  replies_of (t ++ u) = replies_of t ++ replies_of u.
Proof.
  induction t as [| e t IH]; simpl; [reflexivity |].
  destruct e; simpl; rewrite IH; reflexivity.
Qed.

Section Stock.

Variable rt : runtime.
Variable net : network.
Variable pid : string.

(** The loop visits the variants in order, sends one deliverables request
    for each, and adds up the contributions of the answers. *)
Lemma quick_stock_loop_run (vs : list json) :
  Forall has_id vs ->
  forall (total : nat) (t : trace),
    let ex := exchanges net (requests_of t) (stock_requests rt pid vs) in
    quick_stock_loop rt net pid vs total t =
    (Ok (total + list_sum (map contribution (replies_of ex))), t ++ ex).
Proof.
  induction 1 as [| v rest [i Hi] _ IH]; intros total t; cbn zeta.
  - simpl. rewrite Nat.add_0_r, app_nil_r. reflexivity.
  - cbn [quick_stock_loop stock_requests map exchanges replies_of list_sum].
    assert (Hv : variant_id v = i)
      by (unfold variant_id; rewrite Hi; reflexivity).
    rewrite Hv, Hi. fold (stock_requests rt pid rest).
    unfold bind at 1. unfold lift at 1. unfold bind at 1.
    rewrite get_stock_run.
    set (req := stock_request rt pid i).
    set (rep := net (requests_of t) req).
    pose proof (contribution_body rep) as Hc.
    destruct (truthy (body_of rep) && is_list (body_of rep)).
    + unfold bind at 1. unfold lift at 1.
      destruct (py_len (body_of rep)) as [n | e]; [| discriminate].
      injection Hc as Hc. subst n.
      rewrite IH. rewrite requests_of_app. simpl (requests_of [_]).
      rewrite <- app_assoc. simpl. f_equal. f_equal. lia.
    + injection Hc as Hc. rewrite <- Hc.
      rewrite IH. rewrite requests_of_app. simpl (requests_of [_]).
      rewrite <- app_assoc. simpl. reflexivity.
Qed.

(** [quick_stock] against any server, stateful or not. *)
Lemma quick_stock_run (vs : list json) (t : trace) :
  fst (get_variants rt net pid t) = Ok (JArr vs) ->
  Forall has_id vs ->
  let t1 := snd (get_variants rt net pid t) in
  let ex := exchanges net (requests_of t1) (stock_requests rt pid vs) in
  quick_stock rt net pid t =
  (Ok (list_sum (map contribution (replies_of ex))), t1 ++ ex).
Proof.
  intros Hv Hid t1 ex. unfold quick_stock, bind at 1.
  subst t1 ex. destruct (get_variants rt net pid t) as [r t1].
  simpl in Hv. subst r. simpl snd.
  unfold bind, lift, py_iter. rewrite quick_stock_loop_run by assumption.
  reflexivity.
Qed.

End Stock.

Lemma exchanges_stateless (respond : request -> reply)
  (h reqs : list request) :
  exchanges (stateless respond) h reqs =
  map (fun r => Http r (respond r)) reqs.
Proof.
  revert h. induction reqs as [| r reqs IH]; intros h; simpl;
    [reflexivity | rewrite IH; reflexivity].
Qed.

Lemma replies_of_exchanges_stateless
  (respond : request -> reply) (h reqs : list request) :
  replies_of (exchanges (stateless respond) h reqs) = map respond reqs.
Proof.
  rewrite exchanges_stateless.
  induction reqs as [| r reqs IH]; simpl;
    [reflexivity | rewrite IH; reflexivity].
Qed.

Lemma stock_total_perm (rt : runtime) (respond : request -> reply)
  (pid : string) (vs vs' : list json) :
  Permutation vs vs' ->
  stock_total rt respond pid vs = stock_total rt respond pid vs'.
Proof.
  intros Hp. unfold stock_total.
  induction Hp; simpl; lia.
Qed.

Lemma stock_total_app (rt : runtime) (respond : request -> reply)
  (pid : string) (vs ws : list json) :
  stock_total rt respond pid (vs ++ ws) =
  stock_total rt respond pid vs + stock_total rt respond pid ws.
Proof. unfold stock_total. rewrite map_app. apply list_sum_app. Qed.

Lemma stock_total_ext (rt : runtime) (respond respond' : request -> reply)
  (pid : string) (vs : list json) :
  (forall vid, respond' (stock_request rt pid vid)
               = respond (stock_request rt pid vid)) ->
  stock_total rt respond' pid vs = stock_total rt respond pid vs.
Proof.
  intros H. unfold stock_total. f_equal. apply map_ext. intros v.
  rewrite H. reflexivity.
Qed.

Lemma quick_stock_stateless (rt : runtime) (respond : request -> reply)
  (pid : string) (vs : list json) (t : trace) :
  fst (get_variants rt (stateless respond) pid t) = Ok (JArr vs) ->
  Forall has_id vs ->
  fst (quick_stock rt (stateless respond) pid t) =
  Ok (stock_total rt respond pid vs).
Proof.
  intros Hv Hid. rewrite (quick_stock_run _ _ _ vs) by assumption.
  simpl fst. rewrite replies_of_exchanges_stateless.
  unfold stock_total, stock_requests. rewrite !map_map. reflexivity.
Qed.

(** C4 as amended.  When the product's variant list is fetched and every
    variant carries an id, [quick_stock] returns the sum, over the variants,
    of the length of the list each deliverables response carries, a response
    whose body is absent or not a list adding nothing; the status code of a
    deliverables response plays no part.  Listing the same variants in
    another order gives the same total. *)
Theorem quick_stock_sums_list_lengths
  (rt : runtime) (respond respond' : request -> reply) (pid : string)
  (vs vs' : list json) (t t' : trace) :
  fst (get_variants rt (stateless respond) pid t) = Ok (JArr vs) ->
  fst (get_variants rt (stateless respond') pid t') = Ok (JArr vs') ->
  Forall has_id vs ->
  Permutation vs vs' ->
  (forall vid, respond' (stock_request rt pid vid)
               = respond (stock_request rt pid vid)) ->
  fst (quick_stock rt (stateless respond) pid t) =
    Ok (stock_total rt respond pid vs) /\
  fst (quick_stock rt (stateless respond') pid t') =
    fst (quick_stock rt (stateless respond) pid t) /\
  (forall xs ys : list json,
     vs = xs ++ ys ->
     stock_total rt respond pid vs =
     stock_total rt respond pid xs + stock_total rt respond pid ys).
Proof.
  intros Hv Hv' Hid Hp Hsame.
  assert (Hid' : Forall has_id vs').
  { rewrite Forall_forall in *. intros x Hx. apply Hid.
    apply Permutation_sym in Hp. exact (Permutation_in x Hp Hx). }
  rewrite (quick_stock_stateless rt respond pid vs t Hv Hid).
  rewrite (quick_stock_stateless rt respond' pid vs' t' Hv' Hid').
  split; [reflexivity |]. split.
  - f_equal. rewrite (stock_total_ext rt respond respond' pid vs' Hsame).
    symmetry. apply stock_total_perm. exact Hp.
  - intros xs ys Heq. rewrite Heq. apply stock_total_app.
Qed.

Lemma quick_stock_sums_list_lengths_witness :
  fst (get_variants sample_runtime (stateless (example_shop example_variants))
         "p1" []) = Ok (JArr example_variants) /\
  Permutation example_variants (rev example_variants) /\
  stock_total sample_runtime (example_shop example_variants) "p1"
              example_variants = 3 + 0 + 5 /\
  fst (quick_stock sample_runtime (stateless (example_shop example_variants))
         "p1" []) = Ok 8 /\
  fst (quick_stock sample_runtime
         (stateless (example_shop (rev example_variants))) "p1" []) =
  fst (quick_stock sample_runtime (stateless (example_shop example_variants))
         "p1" []).
Proof.
  split; [reflexivity |]. split; [apply Permutation_rev |].
  split; [reflexivity |].
  assert (H := quick_stock_sums_list_lengths sample_runtime
                 (example_shop example_variants)
                 (example_shop (rev example_variants)) "p1"
                 example_variants (rev example_variants) [] []).
  destruct H as [Hsum [Hperm _]].
  - reflexivity.
  - reflexivity.
  - repeat constructor; eexists; reflexivity.
  - apply Permutation_rev.
  - intros vid. reflexivity.
  - split; [exact Hsum | exact Hperm].
Defined.

(** C4, the claim as written fails: the one variant's deliverables fetch
    fails with a 500, yet the two items of its body are counted. *)
Lemma quick_stock_counts_failed_fetch :
  status (failing_shop (stock_request sample_runtime "p1" (JNum 1))) = 500%Z /\
  fst (get_variants sample_runtime (stateless failing_shop) "p1" []) =
    Ok (JArr [variant 1]) /\
  claimed_total sample_runtime failing_shop "p1" [variant 1] = 0 /\
  fst (quick_stock sample_runtime (stateless failing_shop) "p1" []) = Ok 2 /\
  fst (quick_stock sample_runtime (stateless failing_shop) "p1" []) <>
    Ok (claimed_total sample_runtime failing_shop "p1" [variant 1]).
Proof.
  split; [reflexivity |]. split; [reflexivity |]. split; [reflexivity |].
  split; [reflexivity | discriminate].
Qed.

(** * Further properties of the code *)

(** ** What the commands send to the API *)

Section Issues.

Variable P : request -> Prop.

Lemma issues_ret {A : Type} (a : A) : issues P (ret a).
Proof.
  intros t. exists []. rewrite app_nil_r. split; [reflexivity | constructor].
Qed.

Lemma issues_lift {A : Type} (r : result A) : issues P (lift r).
Proof.
  intros t. exists []. rewrite app_nil_r. split; [reflexivity | constructor].
Qed.

Lemma issues_emit (e : event) :
  Forall P (requests_of [e]) -> issues P (emit e).
Proof. intros H t. exists [e]. split; [reflexivity | exact H]. Qed.

Lemma issues_bind {A B : Type} (c : M A) (k : A -> M B) :
  issues P c -> (forall a, issues P (k a)) -> issues P (bind c k).
Proof.
  intros Hc Hk t. unfold bind. destruct (Hc t) as [n1 [E1 F1]].
  destruct (c t) as [[a | e] t1]; simpl in E1; subst t1.
  - destruct (Hk a (t ++ n1)) as [n2 [E2 F2]].
    exists (n1 ++ n2). rewrite E2, app_assoc. split; [reflexivity |].
    rewrite requests_of_app. apply Forall_app. split; assumption.
  - exists n1. split; [reflexivity | assumption].
Qed.

Lemma issues_api_request (rt : runtime) (net : network)
  (meth u : string) (body : json) :
  P {| method := meth; url := u;
       req_headers := headers rt; req_json := body |} ->
  issues P (api_request rt net meth u body).
Proof.
  intros H t. eexists. split; [reflexivity |].
  simpl. constructor; [exact H | constructor].
Qed.

End Issues.

Ltac issues_step :=
  first
    [ apply issues_ret
    | apply issues_lift
    | apply issues_emit; constructor
    | apply issues_api_request; repeat split
    | apply issues_bind; [| intros ?]
    | match goal with
      | |- issues _ (match ?x with _ => _ end) => destruct x
      end ].

Section ReadOnly.

Variable rt : runtime.
Variable net : network.

Lemma get_invoice_issues (id : string) :
  issues (read_request rt) (get_invoice rt net id).
Proof. unfold get_invoice. repeat issues_step. Qed.

Lemma get_order_issues (id : string) :
  issues (read_request rt) (get_order rt net id).
Proof. unfold get_order. repeat issues_step. Qed.

Lemma list_products_issues :
  issues (read_request rt) (list_products rt net).
Proof. unfold list_products. repeat issues_step. Qed.

Lemma get_variants_issues (pid : string) :
  issues (read_request rt) (get_variants rt net pid).
Proof. unfold get_variants. repeat issues_step. Qed.

Lemma get_stock_issues (pid : string) (vid : json) :
  issues (read_request rt) (get_stock rt net pid vid).
Proof. unfold get_stock. repeat issues_step. Qed.

Lemma quick_stock_loop_issues (pid : string) (vs : list json) :
  forall total,
    issues (read_request rt) (quick_stock_loop rt net pid vs total).
Proof.
  induction vs as [| v vs IH]; intros total; simpl.
  - apply issues_ret.
  - apply issues_bind; [apply issues_lift | intros vid].
    apply issues_bind; [apply get_stock_issues | intros [st js]].
    destruct (truthy js && is_list js).
    + apply issues_bind; [apply issues_lift | intros n]. apply IH.
    + apply IH.
Qed.

Lemma quick_stock_issues (pid : string) :
  issues (read_request rt) (quick_stock rt net pid).
Proof.
  unfold quick_stock.
  apply issues_bind; [apply get_variants_issues | intros vs].
  apply issues_bind; [apply issues_lift | intros l].
  apply quick_stock_loop_issues.
Qed.

Lemma invoice_issues (i : Interaction) (id : string) :
  issues (read_request rt) (invoice rt net i id).
Proof.
  unfold invoice. destruct (negb (administrator i)).
  - apply issues_emit. constructor.
  - apply issues_bind; [apply issues_emit; constructor | intros _].
    apply issues_bind; [apply get_invoice_issues | intros data].
    repeat issues_step.
Qed.

Lemma order_issues (i : Interaction) (id : string) :
  issues (read_request rt) (order rt net i id).
Proof.
  unfold order.
  apply issues_bind; [apply issues_emit; constructor | intros _].
  apply issues_bind; [apply get_order_issues | intros data].
  repeat issues_step.
Qed.

Lemma stock_issues (i : Interaction) (pid : string) :
  issues (read_request rt) (stock rt net i pid).
Proof.
  unfold stock.
  apply issues_bind; [apply issues_emit; constructor | intros _].
  apply issues_bind; [apply quick_stock_issues | intros n].
  apply issues_emit. constructor.
Qed.

Lemma product_list_issues (i : Interaction) :
  issues (read_request rt) (product_list rt net i).
Proof.
  unfold product_list.
  apply issues_bind; [apply issues_emit; constructor | intros _].
  apply issues_bind; [apply list_products_issues | intros ps].
  repeat issues_step.
Qed.

End ReadOnly.

(** X1.  The commands [invoice], [order], [stock] and [product_list] only
    read: on every path, those that end in an exception included, each
    request they send is a GET without a body that bears the Authorization
    header, and the events already in the trace are left as they are. *)
Theorem commands_only_read
  (rt : runtime) (net : network) (i : Interaction) (id : string) :
  issues (read_request rt) (invoice rt net i id) /\
  issues (read_request rt) (order rt net i id) /\
  issues (read_request rt) (stock rt net i id) /\
  issues (read_request rt) (product_list rt net i).
Proof.
  split; [apply invoice_issues |]. split; [apply order_issues |].
  split; [apply stock_issues | apply product_list_issues].
Qed.

(** ** The read operations, characterised *)

Lemma list_products_run (rt : runtime) (net : network) (t : trace) :
  let rep := net (requests_of t) (products_request rt) in
  list_products rt net t =
  ((if is_dict (body_of rep) then py_get (body_of rep) "data" (JArr [])
    else Ok (JArr [])),
   t ++ [Http (products_request rt) rep]).
Proof.
  intros rep. unfold list_products, bind. rewrite api_request_run.
  fold (products_request rt). fold rep. fold (body_of rep).
  destruct (is_dict (body_of rep)); reflexivity.
Qed.

Lemma requests_of_defer (t : trace) (b : bool) :
  requests_of (t ++ [Defer b]) = requests_of t.
Proof. rewrite requests_of_app. simpl. apply app_nil_r. Qed.

(** X2.  [get_invoice] raises exactly when the status is 200 and the body is
    a truthy value that is not a JSON object (a non-empty array or string, a
    non-zero number, true), and then it raises [AttributeError]; with any
    other status it returns [None] whatever the body. *)
Theorem get_invoice_raises_iff
  (rt : runtime) (net : network) (id : string) (t : trace) :
  let rep := net (requests_of t) (order_request rt id) in
  (forall e, fst (get_invoice rt net id t) = Raise e <->
     e = AttributeError /\ status rep = 200%Z /\
     truthy (body_of rep) = true /\ is_dict (body_of rep) = false) /\
  (status rep <> 200%Z -> fst (get_invoice rt net id t) = Ok JNull).
Proof.
  intros rep. rewrite get_invoice_run. fold rep. simpl fst.
  unfold invoice_data. split.
  - intros e. destruct (Z.eqb_spec (status rep) 200) as [Hs | Hs]; simpl.
    + destruct (truthy (body_of rep)) eqn:Ht; simpl.
      * destruct (body_of rep); simpl; split;
          try (intros H; injection H as <-; auto);
          try (intros [-> _]; reflexivity);
          try discriminate; try (intros [_ [_ [_ H]]]; discriminate).
      * split; [discriminate | intros [_ [_ [H _]]]; discriminate].
    + split; [discriminate | intros [_ [H _]]; contradiction].
  - intros Hs. destruct (Z.eqb_spec (status rep) 200); [contradiction |].
    reflexivity.
Qed.

(** X3.  [get_variants] returns normally exactly when the body is a JSON
    object whose [data], if present, is a JSON object too: it then returns
    the [variants] of [data], and the empty list when [data] or [variants]
    is missing.  In every other case it raises [AttributeError], and never
    another exception.  The status code plays no part. *)
Theorem get_variants_ok_iff
  (rt : runtime) (net : network) (pid : string) (t : trace) :
  let rep := net (requests_of t) (product_request rt pid) in
  (forall v, fst (get_variants rt net pid t) = Ok v <->
     exists o, body_of rep = JObj o /\
       match lookup "data" o with
       | None => v = JArr []
       | Some (JObj d) =>
           v = match lookup "variants" d with
               | Some x => x
               | None => JArr []
               end
       | Some _ => False
       end) /\
  (forall e, fst (get_variants rt net pid t) = Raise e -> e = AttributeError).
Proof.
  intros rep. rewrite get_variants_run. fold rep. simpl fst.
  unfold variants_data. split.
  - intros v. destruct (body_of rep) as [| b | n | s | l | o]; simpl;
      try (split; [discriminate | intros [o' [H _]]; discriminate]).
    destruct (lookup "data" o) as [[| b | n | s | l | d] |] eqn:Hd; simpl;
      try (split; [discriminate
                  | intros [o' [H H']]; injection H as <-; rewrite Hd in H';
                    contradiction]).
    + split.
      * intros H. injection H as <-. exists o. rewrite Hd. auto.
      * intros [o' [H H']]. injection H as <-. rewrite Hd in H'. subst v.
        reflexivity.
    + split.
      * intros H. injection H as <-. exists o. rewrite Hd. auto.
      * intros [o' [H H']]. injection H as <-. rewrite Hd in H'. subst v.
        reflexivity.
  - intros e.
    destruct (py_get (body_of rep) "data" (JObj [])) as [d | e'] eqn:H.
    + destruct d; simpl; intros H'; try discriminate;
        injection H' as <-; reflexivity.
    + destruct (body_of rep); simpl in H; try discriminate;
        injection H as <-; intros H'; injection H' as <-; reflexivity.
Qed.

(** X4.  [list_products] never raises: whatever the response, it sends its
    one GET and returns normally, the empty list when the body is not a JSON
    object or has no [data], and what [data] holds otherwise, list or
    not. *)
Theorem list_products_never_raises
  (rt : runtime) (net : network) (t : trace) :
  let rep := net (requests_of t) (products_request rt) in
  (exists v, list_products rt net t =
             (Ok v, t ++ [Http (products_request rt) rep])) /\
  (is_dict (body_of rep) = false ->
   fst (list_products rt net t) = Ok (JArr [])) /\
  (forall o, body_of rep = JObj o ->
   fst (list_products rt net t) =
   Ok (match lookup "data" o with Some x => x | None => JArr [] end)).
Proof.
  intros rep. rewrite list_products_run. fold rep.
  split; [| split].
  - destruct (body_of rep); simpl; eexists; reflexivity.
  - intros H. rewrite H. reflexivity.
  - intros o H. rewrite H. reflexivity.
Qed.

(** ** The invoice and order commands *)

Lemma all_strs_none (l : list json) :
  (exists x, In x l /\ is_str x = false) -> all_strs l = None.
Proof.
  induction l as [| y l IH]; intros [x [Hin Hx]]; [destruct Hin |].
  destruct Hin as [-> | Hin].
  - destruct x; try reflexivity. discriminate.
  - simpl. destruct y; try reflexivity.
    rewrite IH; [reflexivity | exists x; auto].
Qed.

Section CommandRuns.

Variable rt : runtime.
Variable net : network.

(** X5.  For an administrator, [invoice] acknowledges, sends its one GET
    and answers "Invoice no encontrada" whenever the status is not 200,
    whatever the body holds, and also when the body is absent or otherwise
    falsy, or is a JSON object whose [data] is missing or falsy. *)
Theorem invoice_not_found
  (i : Interaction) (id : string) (t : trace) :
  let rep := net (requests_of t) (order_request rt id) in
  administrator i = true ->
  status rep <> 200%Z \/
  truthy (body_of rep) = false \/
  (exists o, body_of rep = JObj o /\
     truthy (match lookup "data" o with Some x => x | None => JNull end)
     = false) ->
  invoice rt net i id t =
  (Ok tt,
   t ++ [Defer true; Http (order_request rt id) rep;
         FollowupText "Invoice no encontrada"]).
Proof.
  intros rep Hadm H. unfold invoice. rewrite Hadm. cbv [negb].
  unfold bind at 1. unfold emit at 1. unfold bind at 1.
  rewrite get_invoice_run, requests_of_defer. fold rep.
  assert (Hd : exists v, invoice_data rep = Ok v /\ truthy v = false).
  { unfold invoice_data.
    destruct (Z.eqb_spec (status rep) 200) as [Hs | Hs]; simpl;
      [| exists JNull; auto].
    destruct H as [H | [H | [o [Ho H]]]]; [contradiction | |].
    - rewrite H. exists JNull. auto.
    - rewrite Ho. destruct o as [| kv o'].
      + exists JNull. auto.
      + cbn [truthy negb py_get]. eexists. split; [reflexivity | exact H]. }
  destruct Hd as [v [Hv Ht]]. rewrite Hv, Ht. simpl.
  unfold emit. rewrite <- !app_assoc. reflexivity.
Qed.

(** X6.  When one of the first ten deliverables of the record is not a
    string, [invoice] raises [TypeError] after the acknowledgement and the
    GET: no embed and no message follow. *)
Theorem invoice_rejects_non_text_deliverable
  (i : Interaction) (id : string) (t : trace)
  (o d : list (string * json)) (l : list json) :
  let rep := net (requests_of t) (order_request rt id) in
  administrator i = true ->
  status rep = 200%Z ->
  body_of rep = JObj o ->
  lookup "data" o = Some (JObj d) ->
  lookup "deliverables" d = Some (JArr l) ->
  (exists x, In x (firstn 10 l) /\ is_str x = false) ->
  invoice rt net i id t =
  (Raise TypeError, t ++ [Defer true; Http (order_request rt id) rep]).
Proof.
  intros rep Hadm Hs Hb Hd Hl Hx. unfold invoice. rewrite Hadm. cbv [negb].
  unfold bind at 1. unfold emit at 1. unfold bind at 1.
  rewrite get_invoice_run, requests_of_defer. fold rep.
  assert (Hv : invoice_data rep = Ok (JObj d)).
  { unfold invoice_data. rewrite Hs, Hb, (lookup_some_truthy _ _ _ Hd).
    simpl. rewrite Hd. reflexivity. }
  rewrite Hv. rewrite (lookup_some_truthy _ _ _ Hl). cbv [negb].
  unfold bind, lift, py_get. rewrite Hl.
  assert (Ht : truthy (JArr l) = true).
  { destruct l; [| reflexivity]. destruct Hx as [x [[] _]]. }
  rewrite Ht. unfold py_slice_to, py_join, py_iter.
  rewrite (all_strs_none _ Hx).
  rewrite <- !app_assoc. reflexivity.
Qed.

(** X7.  [order] answers "Pedido no encontrado" when the body is absent or
    otherwise falsy, and when it is a JSON object whose [data] is missing or
    falsy; the status code is not looked at. *)
Theorem order_not_found
  (i : Interaction) (id : string) (t : trace) :
  let rep := net (requests_of t) (order_request rt id) in
  truthy (body_of rep) = false \/
  (exists o, body_of rep = JObj o /\
     truthy (match lookup "data" o with Some x => x | None => JNull end)
     = false) ->
  order rt net i id t =
  (Ok tt,
   t ++ [Defer true; Http (order_request rt id) rep;
         FollowupText "Pedido no encontrado"]).
Proof.
  intros rep H. unfold order.
  unfold bind at 1. unfold emit at 1. unfold bind at 1.
  rewrite get_order_run, requests_of_defer. fold rep.
  assert (Hd : exists v, order_data rep = Ok v /\ truthy v = false).
  { unfold order_data. destruct H as [H | [o [Ho H]]].
    - rewrite H. exists JNull. auto.
    - rewrite Ho. destruct o as [| kv o'].
      + exists JNull. auto.
      + cbn [truthy py_get]. eexists. split; [reflexivity | exact H]. }
  destruct Hd as [v [Hv Ht]]. rewrite Hv, Ht. simpl.
  unfold emit. rewrite <- !app_assoc. reflexivity.
Qed.

(** X8.  When the body carries a non-empty record under [data], [order]
    sends a blue embed titled with the order id whose fields are Email,
    Estado and Precio in that order, "N/A" standing for a missing key, and
    nothing else of the record; this holds for every status code. *)
Theorem order_embed
  (i : Interaction) (id : string) (t : trace)
  (o d : list (string * json)) :
  let rep := net (requests_of t) (order_request rt id) in
  body_of rep = JObj o ->
  lookup "data" o = Some (JObj d) ->
  d <> [] ->
  order rt net i id t =
  (Ok tt,
   t ++ [Defer true; Http (order_request rt id) rep;
         FollowupEmbed {| title := ("Order " ++ id)%string; color := Blue;
                          fields := order_fields rt d |}]).
Proof.
  intros rep Hb Hd Hne. unfold order.
  unfold bind at 1. unfold emit at 1. unfold bind at 1.
  rewrite get_order_run, requests_of_defer. fold rep.
  assert (Hv : order_data rep = Ok (JObj d)).
  { unfold order_data. rewrite Hb, (lookup_some_truthy _ _ _ Hd).
    simpl. rewrite Hd. reflexivity. }
  rewrite Hv.
  assert (Ht : truthy (JObj d) = true)
    by (destruct d; [contradiction | reflexivity]).
  rewrite Ht. cbv [negb].
  unfold bind, lift, py_get, emit, add_field. cbn [fields title color].
  rewrite <- !app_assoc. reflexivity.
Qed.

End CommandRuns.

Lemma invoice_not_found_witness :
  administrator admin = true /\
  status fifty_reply_404 <> 200%Z /\
  invoice sample_runtime (answering fifty_reply_404) admin "inv-1" [] =
  (Ok tt,
   [Defer true; Http (order_request sample_runtime "inv-1") fifty_reply_404;
    FollowupText "Invoice no encontrada"]).
Proof.
  split; [reflexivity |]. split; [discriminate |].
  apply (invoice_not_found sample_runtime (answering fifty_reply_404)
           admin "inv-1" []);
    [reflexivity | left; discriminate].
Defined.

Lemma invoice_rejects_non_text_deliverable_witness :
  lookup "deliverables" odd_invoice = Some (JArr [JStr "KEY-1"; JNum 5]) /\
  invoice sample_runtime (answering odd_reply) admin "inv-1" [] =
  (Raise TypeError,
   [Defer true; Http (order_request sample_runtime "inv-1") odd_reply]).
Proof.
  split; [reflexivity |].
  apply (invoice_rejects_non_text_deliverable sample_runtime
           (answering odd_reply) admin "inv-1" []
           [("data", JObj odd_invoice)] odd_invoice
           [JStr "KEY-1"; JNum 5]);
    try reflexivity.
  exists (JNum 5). split; [right; left; reflexivity | reflexivity].
Defined.

Lemma order_not_found_witness :
  body_of not_found = JObj [("message", JStr "Not Found")] /\
  order sample_runtime (answering not_found) member "ord-1" [] =
  (Ok tt,
   [Defer true; Http (order_request sample_runtime "ord-1") not_found;
    FollowupText "Pedido no encontrado"]).
Proof.
  split; [reflexivity |].
  apply (order_not_found sample_runtime (answering not_found) member
           "ord-1" []).
  right. exists [("message", JStr "Not Found")].
  split; reflexivity.
Defined.

Lemma order_embed_witness :
  status fifty_reply_404 = 404%Z /\
  order sample_runtime (answering fifty_reply_404) member "ord-1" [] =
  (Ok tt,
   [Defer true; Http (order_request sample_runtime "ord-1") fifty_reply_404;
    FollowupEmbed
      {| title := "Order ord-1"; color := Blue;
         fields :=
           [{| name := "Email"; value := "buyer@example.org";
               inline := true |};
            {| name := "Estado"; value := "completed"; inline := true |};
            {| name := "Precio"; value := "12"; inline := true |}] |}]).
Proof.
  split; [reflexivity |].
  apply (order_embed sample_runtime (answering fifty_reply_404) member
           "ord-1" [] [("data", JObj fifty_invoice)] fifty_invoice);
    try reflexivity.
  discriminate.
Defined.

(** ** The stock total and the stock command *)

Lemma requests_of_exchanges (net : network) (h reqs : list request) :
  requests_of (exchanges net h reqs) = reqs.
Proof.
  revert h. induction reqs as [| r reqs IH]; intros h; simpl;
    [reflexivity | rewrite IH; reflexivity].
Qed.

Lemma variants_data_missing (rep : reply) (o : list (string * json)) :
  body_of rep = JObj o ->
  lookup "data" o = None ->
  variants_data rep = Ok (JArr []).
Proof.
  intros Hb Hd. unfold variants_data. rewrite Hb. simpl. rewrite Hd.
  reflexivity.
Qed.

Lemma variants_data_bad_body (rep : reply) :
  is_dict (body_of rep) = false ->
  variants_data rep = Raise AttributeError.
Proof.
  intros H. unfold variants_data.
  destruct (body_of rep); try reflexivity. discriminate.
Qed.

Section StockRuns.

Variable rt : runtime.
Variable net : network.

(** The loop over a list that starts with variants carrying an id: it
    fetches those, then goes on with the rest. *)
Lemma quick_stock_loop_app (pid : string) (pre rest : list json) :
  Forall has_id pre ->
  forall (total : nat) (t : trace),
    let ex := exchanges net (requests_of t) (stock_requests rt pid pre) in
    quick_stock_loop rt net pid (pre ++ rest) total t =
    quick_stock_loop rt net pid rest
      (total + list_sum (map contribution (replies_of ex))) (t ++ ex).
Proof.
  induction 1 as [| v pre' [i Hi] _ IH]; intros total t; cbn zeta.
  - simpl. rewrite Nat.add_0_r, app_nil_r. reflexivity.
  - cbn [app quick_stock_loop stock_requests map exchanges replies_of
         list_sum].
    assert (Hv : variant_id v = i)
      by (unfold variant_id; rewrite Hi; reflexivity).
    rewrite Hv, Hi. fold (stock_requests rt pid pre').
    unfold bind at 1. unfold lift at 1. unfold bind at 1.
    rewrite get_stock_run.
    set (req := stock_request rt pid i).
    set (rep := net (requests_of t) req).
    pose proof (contribution_body rep) as Hc.
    destruct (truthy (body_of rep) && is_list (body_of rep)).
    + unfold bind at 1. unfold lift at 1.
      destruct (py_len (body_of rep)) as [n | e]; [| discriminate].
      injection Hc as Hc. subst n.
      rewrite IH. rewrite requests_of_app. simpl (requests_of [_]).
      rewrite <- app_assoc. simpl. rewrite Nat.add_assoc. reflexivity.
    + injection Hc as Hc. rewrite <- Hc.
      rewrite IH. rewrite requests_of_app. simpl (requests_of [_]).
      rewrite <- app_assoc. simpl. reflexivity.
Qed.

(** X9.  When the variant list is fetched and every variant carries an id,
    [quick_stock] sends the product GET and then exactly one deliverables
    GET per variant, in the order of the list, against any server: one plus
    the number of variants requests in all. *)
Theorem quick_stock_one_request_per_variant
  (pid : string) (vs : list json) (t : trace) :
  fst (get_variants rt net pid t) = Ok (JArr vs) ->
  Forall has_id vs ->
  requests_of (snd (quick_stock rt net pid t)) =
  requests_of t ++ product_request rt pid :: stock_requests rt pid vs /\
  http_calls (snd (quick_stock rt net pid t)) =
  http_calls t + 1 + List.length vs.
Proof.
  intros Hv Hid.
  assert (Hreq : requests_of (snd (quick_stock rt net pid t)) =
                 requests_of t ++ product_request rt pid
                   :: stock_requests rt pid vs).
  { rewrite (quick_stock_run rt net pid vs t Hv Hid). simpl snd.
    rewrite get_variants_run. simpl snd.
    rewrite !requests_of_app, requests_of_exchanges. simpl.
    rewrite <- app_assoc. reflexivity. }
  split; [exact Hreq |].
  unfold http_calls. rewrite Hreq, length_app. simpl.
  unfold stock_requests. rewrite length_map. lia.
Qed.

(** X10.  A variant record without the key [id] stops [quick_stock] with
    [KeyError]: the variants before it have been fetched, those after it
    are not, and the total counted so far is lost. *)
Theorem quick_stock_stops_at_variant_without_id
  (pid : string) (pre post : list json) (v : json) (t : trace) :
  fst (get_variants rt net pid t) = Ok (JArr (pre ++ v :: post)) ->
  Forall has_id pre ->
  lacks_key "id" v ->
  fst (quick_stock rt net pid t) = Raise KeyError /\
  requests_of (snd (quick_stock rt net pid t)) =
  requests_of t ++ product_request rt pid :: stock_requests rt pid pre.
Proof.
  intros Hv Hid [o [-> Ho]].
  set (t1 := t ++ [Http (product_request rt pid)
                        (net (requests_of t) (product_request rt pid))]).
  assert (Hrun : quick_stock rt net pid t =
                 (Raise KeyError,
                  t1 ++ exchanges net (requests_of t1)
                          (stock_requests rt pid pre))).
  { unfold quick_stock, bind at 1.
    pose proof (get_variants_run rt net pid t) as Hg. cbn zeta in Hg.
    rewrite Hg in Hv |- *. simpl in Hv. rewrite Hv. fold t1.
    unfold bind at 1. unfold lift at 1. cbn [py_iter].
    rewrite quick_stock_loop_app by assumption.
    cbn [quick_stock_loop]. unfold bind at 1. unfold lift at 1.
    cbn [py_getitem]. rewrite Ho. reflexivity. }
  rewrite Hrun. simpl fst. simpl snd. split; [reflexivity |].
  unfold t1. rewrite !requests_of_app, requests_of_exchanges. simpl.
  rewrite <- app_assoc. reflexivity.
Qed.

(** X11.  A product response that is a JSON object without [data], as an
    error body is, makes [stock] answer "Stock disponible: 0" after its one
    GET: an unknown product reads as a product without stock. *)
Theorem stock_of_unknown_product_is_zero
  (i : Interaction) (pid : string) (t : trace) (o : list (string * json)) :
  let rep := net (requests_of t) (product_request rt pid) in
  body_of rep = JObj o ->
  lookup "data" o = None ->
  stock rt net i pid t =
  (Ok tt,
   t ++ [Defer true; Http (product_request rt pid) rep;
         FollowupText "Stock disponible: 0"]).
Proof.
  intros rep Hb Hd. unfold stock.
  unfold bind at 1. unfold emit at 1. unfold bind at 1.
  unfold quick_stock, bind at 1.
  rewrite get_variants_run, requests_of_defer. fold rep.
  rewrite (variants_data_missing rep o Hb Hd).
  unfold bind, lift, emit. simpl. rewrite <- !app_assoc. reflexivity.
Qed.

(** X12.  A product response whose body is not a JSON object makes [stock]
    raise [AttributeError] after the acknowledgement and the GET: the user
    gets no answer. *)
Theorem stock_gives_no_answer_on_bad_body
  (i : Interaction) (pid : string) (t : trace) :
  let rep := net (requests_of t) (product_request rt pid) in
  is_dict (body_of rep) = false ->
  stock rt net i pid t =
  (Raise AttributeError,
   t ++ [Defer true; Http (product_request rt pid) rep]).
Proof.
  intros rep Hb. unfold stock.
  unfold bind at 1. unfold emit at 1. unfold bind at 1.
  unfold quick_stock, bind at 1.
  rewrite get_variants_run, requests_of_defer. fold rep.
  rewrite (variants_data_bad_body rep Hb).
  rewrite <- !app_assoc. reflexivity.
Qed.

End StockRuns.

(** X13.  Against a server whose answers depend on the request alone,
    [stock] acknowledges, fetches the product and each variant's
    deliverables in order, and answers "Stock disponible: N", N being the
    sum of the lengths of the lists received. *)
Theorem stock_reports_total
  (rt : runtime) (respond : request -> reply) (i : Interaction)
  (pid : string) (vs : list json) (t : trace) :
  variants_data (respond (product_request rt pid)) = Ok (JArr vs) ->
  Forall has_id vs ->
  stock rt (stateless respond) i pid t =
  (Ok tt,
   t ++ Defer true
     :: Http (product_request rt pid) (respond (product_request rt pid))
     :: map (fun r => Http r (respond r)) (stock_requests rt pid vs)
     ++ [FollowupText
           ("Stock disponible: "
            ++ str_of_nat (stock_total rt respond pid vs))%string]).
Proof.
  intros Hv Hid. unfold stock.
  unfold bind at 1. unfold emit at 1. unfold bind at 1.
  assert (Hg : fst (get_variants rt (stateless respond) pid
                      (t ++ [Defer true])) = Ok (JArr vs)).
  { rewrite get_variants_run. exact Hv. }
  rewrite (quick_stock_run rt (stateless respond) pid vs _ Hg Hid).
  rewrite get_variants_run. simpl snd.
  rewrite replies_of_exchanges_stateless, exchanges_stateless.
  unfold emit, stock_total, stock_requests. rewrite !map_map.
  unfold stateless. rewrite <- !app_assoc. reflexivity.
Qed.

Lemma quick_stock_one_request_per_variant_witness :
  fst (get_variants sample_runtime (stateless (example_shop example_variants))
         "p1" []) = Ok (JArr example_variants) /\
  map url
      (requests_of
         (snd (quick_stock sample_runtime
                 (stateless (example_shop example_variants)) "p1" []))) =
  ["https://api.sellauth.com/v1/shops/42/products/p1";
   "https://api.sellauth.com/v1/shops/42/products/p1/deliverables/1";
   "https://api.sellauth.com/v1/shops/42/products/p1/deliverables/2";
   "https://api.sellauth.com/v1/shops/42/products/p1/deliverables/3"] /\
  http_calls
    (snd (quick_stock sample_runtime
            (stateless (example_shop example_variants)) "p1" [])) = 4.
Proof.
  split; [reflexivity |].
  assert (H := quick_stock_one_request_per_variant sample_runtime
                 (stateless (example_shop example_variants)) "p1"
                 example_variants []).
  destruct H as [Hreq Hcalls].
  - reflexivity.
  - repeat constructor; eexists; reflexivity.
  - split; [rewrite Hreq; reflexivity | exact Hcalls].
Defined.

Lemma quick_stock_stops_at_variant_without_id_witness :
  fst (get_variants sample_runtime (stateless (example_shop broken_variants))
         "p1" []) = Ok (JArr broken_variants) /\
  fst (quick_stock sample_runtime (stateless (example_shop broken_variants))
         "p1" []) = Raise KeyError /\
  requests_of
    (snd (quick_stock sample_runtime
            (stateless (example_shop broken_variants)) "p1" [])) =
  [product_request sample_runtime "p1";
   stock_request sample_runtime "p1" (JNum 1)].
Proof.
  split; [reflexivity |].
  apply (quick_stock_stops_at_variant_without_id sample_runtime
           (stateless (example_shop broken_variants)) "p1"
           [variant 1] [variant 3] (JObj [("name", JStr "Deluxe")]) []).
  - reflexivity.
  - repeat constructor; eexists; reflexivity.
  - eexists. split; reflexivity.
Defined.

Lemma stock_reports_total_witness :
  variants_data
    (example_shop example_variants (product_request sample_runtime "p1")) =
  Ok (JArr example_variants) /\
  fst (stock sample_runtime (stateless (example_shop example_variants))
         member "p1" []) = Ok tt /\
  last (snd (stock sample_runtime (stateless (example_shop example_variants))
               member "p1" [])) (Defer false) =
  FollowupText "Stock disponible: 8".
Proof.
  split; [reflexivity |].
  assert (H := stock_reports_total sample_runtime
                 (example_shop example_variants) member "p1"
                 example_variants []).
  rewrite H.
  - split; reflexivity.
  - reflexivity.
  - repeat constructor; eexists; reflexivity.
Defined.

Lemma stock_of_unknown_product_is_zero_witness :
  body_of not_found = JObj [("message", JStr "Not Found")] /\
  stock sample_runtime (answering not_found) member "nope" [] =
  (Ok tt,
   [Defer true; Http (product_request sample_runtime "nope") not_found;
    FollowupText "Stock disponible: 0"]).
Proof.
  split; [reflexivity |].
  apply (stock_of_unknown_product_is_zero sample_runtime
           (answering not_found) member "nope" []
           [("message", JStr "Not Found")]);
    reflexivity.
Defined.

Lemma stock_gives_no_answer_on_bad_body_witness :
  is_dict (body_of bare_ok) = false /\
  stock sample_runtime (answering bare_ok) member "p1" [] =
  (Raise AttributeError,
   [Defer true; Http (product_request sample_runtime "p1") bare_ok]).
Proof.
  split; [reflexivity |].
  apply (stock_gives_no_answer_on_bad_body sample_runtime
           (answering bare_ok) member "p1" []).
  reflexivity.
Defined.

(** ** The product list *)

Lemma comprehension_ok {A B : Type} (f : A -> result B) (g : A -> B)
  (l : list A) :
  Forall (fun x => f x = Ok (g x)) l ->
  comprehension f l = Ok (map g l).
Proof.
  induction 1 as [| x l Hx _ IH]; simpl; [reflexivity |].
  rewrite Hx, IH. reflexivity.
Qed.

Lemma comprehension_raise {A B : Type} (f : A -> result B) (g : A -> B)
  (pre post : list A) (x : A) (e : exn) :
  Forall (fun x => f x = Ok (g x)) pre ->
  f x = Raise e ->
  comprehension f (pre ++ x :: post) = Raise e.
Proof.
  induction 1 as [| y l Hy _ IH]; simpl; intros Hx.
  - rewrite Hx. reflexivity.
  - rewrite Hy, IH by assumption. reflexivity.
Qed.

Lemma product_line_ok (rt : runtime) (p : json) :
  has_name_and_id p -> product_line rt p = Ok (product_text rt p).
Proof.
  intros [[n Hn] [i Hi]].
  unfold product_line, product_text, record_name, variant_id.
  rewrite Hn, Hi. reflexivity.
Qed.

Lemma product_line_lacks_name (rt : runtime) (p : json) :
  lacks_key "name" p -> product_line rt p = Raise KeyError.
Proof.
  intros [o [-> Ho]]. unfold product_line. simpl. rewrite Ho. reflexivity.
Qed.

Lemma product_line_lacks_id (rt : runtime) (p : json) :
  (exists n, py_getitem p "name" = Ok n) -> lacks_key "id" p ->
  product_line rt p = Raise KeyError.
Proof.
  intros [n Hn] [o [-> Ho]]. unfold product_line. rewrite Hn. simpl.
  rewrite Ho. reflexivity.
Qed.

Section ProductList.

Variable rt : runtime.
Variable net : network.

(** X14.  When the body lists a non-empty array of records that each have a
    name and an id, [product_list] answers with one block holding one line
    "name - ID: id" per product, in the order of the array; the status code
    is not looked at. *)
Theorem product_list_lines
  (i : Interaction) (t : trace) (o : list (string * json))
  (ps : list json) :
  let rep := net (requests_of t) (products_request rt) in
  body_of rep = JObj o ->
  lookup "data" o = Some (JArr ps) ->
  ps <> [] ->
  Forall has_name_and_id ps ->
  product_list rt net i t =
  (Ok tt,
   t ++ [Defer true; Http (products_request rt) rep;
         FollowupText
           ("```" ++ String.concat newline (map (product_text rt) ps)
            ++ "```")%string]).
Proof.
  intros rep Hb Hd Hne Hall. unfold product_list.
  unfold bind at 1. unfold emit at 1. unfold bind at 1.
  rewrite list_products_run, requests_of_defer. fold rep.
  rewrite Hb. simpl is_dict. cbv iota. cbn [py_get]. rewrite Hd.
  assert (Ht : truthy (JArr ps) = true)
    by (destruct ps; [contradiction | reflexivity]).
  rewrite Ht. cbv [negb].
  unfold bind, lift. cbn [py_iter].
  rewrite (comprehension_ok (product_line rt) (product_text rt)).
  - unfold emit. rewrite <- !app_assoc. reflexivity.
  - eapply Forall_impl; [| exact Hall]. intros p. apply product_line_ok.
Qed.

(** X15.  [product_list] answers "No hay productos" when the body is not a
    JSON object, and when it is one whose [data] is missing, empty or
    otherwise falsy. *)
Theorem product_list_none
  (i : Interaction) (t : trace) :
  let rep := net (requests_of t) (products_request rt) in
  is_dict (body_of rep) = false \/
  (exists o, body_of rep = JObj o /\
     truthy (match lookup "data" o with Some x => x | None => JArr [] end)
     = false) ->
  product_list rt net i t =
  (Ok tt,
   t ++ [Defer true; Http (products_request rt) rep;
         FollowupText "No hay productos"]).
Proof.
  intros rep H. unfold product_list.
  unfold bind at 1. unfold emit at 1. unfold bind at 1.
  rewrite list_products_run, requests_of_defer. fold rep.
  destruct H as [H | [o [Ho H]]].
  - rewrite H. simpl. unfold emit. rewrite <- !app_assoc. reflexivity.
  - rewrite Ho. simpl is_dict. cbv iota. cbn [py_get]. rewrite H.
    simpl. unfold emit. rewrite <- !app_assoc. reflexivity.
Qed.

(** X16.  One listed record without a name, or with a name and without an
    id, makes [product_list] raise [KeyError] after the acknowledgement and
    the GET: not even the complete records before it are shown. *)
Theorem product_list_fails_on_incomplete_record
  (i : Interaction) (t : trace) (o : list (string * json))
  (pre post : list json) (p : json) :
  let rep := net (requests_of t) (products_request rt) in
  body_of rep = JObj o ->
  lookup "data" o = Some (JArr (pre ++ p :: post)) ->
  Forall has_name_and_id pre ->
  lacks_key "name" p \/
  ((exists n, py_getitem p "name" = Ok n) /\ lacks_key "id" p) ->
  product_list rt net i t =
  (Raise KeyError, t ++ [Defer true; Http (products_request rt) rep]).
Proof.
  intros rep Hb Hd Hall Hp. unfold product_list.
  unfold bind at 1. unfold emit at 1. unfold bind at 1.
  rewrite list_products_run, requests_of_defer. fold rep.
  rewrite Hb. simpl is_dict. cbv iota. cbn [py_get]. rewrite Hd.
  assert (Ht : truthy (JArr (pre ++ p :: post)) = true)
    by (destruct pre; reflexivity).
  rewrite Ht. cbv [negb].
  unfold bind, lift. cbn [py_iter].
  rewrite (comprehension_raise (product_line rt) (product_text rt)
             pre post p KeyError).
  - rewrite <- !app_assoc. reflexivity.
  - eapply Forall_impl; [| exact Hall]. intros q. apply product_line_ok.
  - destruct Hp as [Hn | [Hn Hi]].
    + apply product_line_lacks_name. exact Hn.
    + apply product_line_lacks_id; assumption.
Qed.

End ProductList.

Lemma product_list_lines_witness :
  body_of (listing catalogue) = JObj [("data", JArr catalogue)] /\
  product_list sample_runtime (answering (listing catalogue)) member [] =
  (Ok tt,
   [Defer true; Http (products_request sample_runtime) (listing catalogue);
    FollowupText
      ("```" ++ "Game - ID: 7" ++ newline ++ "Card - ID: 8" ++ "```")%string]).
Proof.
  split; [reflexivity |].
  apply (product_list_lines sample_runtime (answering (listing catalogue))
           member [] [("data", JArr catalogue)] catalogue);
    try reflexivity.
  - discriminate.
  - repeat constructor; eexists; reflexivity.
Defined.

Lemma product_list_none_witness :
  is_dict (body_of bare_ok) = false /\
  product_list sample_runtime (answering bare_ok) member [] =
  (Ok tt,
   [Defer true; Http (products_request sample_runtime) bare_ok;
    FollowupText "No hay productos"]).
Proof.
  split; [reflexivity |].
  apply (product_list_none sample_runtime (answering bare_ok) member []).
  left. reflexivity.
Defined.

Lemma product_list_fails_on_incomplete_record_witness :
  broken_catalogue = [named 7 "Game"] ++ JObj [("id", JNum 8)] :: [] /\
  product_list sample_runtime (answering (listing broken_catalogue))
               member [] =
  (Raise KeyError,
   [Defer true;
    Http (products_request sample_runtime) (listing broken_catalogue)]).
Proof.
  split; [reflexivity |].
  apply (product_list_fails_on_incomplete_record sample_runtime
           (answering (listing broken_catalogue)) member []
           [("data", JArr broken_catalogue)]
           [named 7 "Game"] [] (JObj [("id", JNum 8)])).
  - reflexivity.
  - reflexivity.
  - repeat constructor; eexists; reflexivity.
  - left. eexists. split; reflexivity.
Defined.

(** ** The items of a restock submission *)

Lemma splitlines_from_step (cur : string) (c : ascii) (rest : string) :
  splitlines_from cur (String c rest) =
  if is_linebreak c then cur :: splitlines_from "" (after_break c rest)
  else splitlines_from (cur ++ String c "")%string rest.
Proof.
  simpl. destruct (is_linebreak c); [| reflexivity].
  destruct rest as [| d rest']; simpl; [reflexivity |].
  destruct (is_cr c && is_lf d); reflexivity.
Qed.

Lemma after_break_length (c : ascii) (rest : string) :
  String.length (after_break c rest) <= String.length rest.
Proof.
  destruct rest as [| d rest']; simpl; [lia |].
  destruct (is_cr c && is_lf d); simpl; lia.
Qed.

Lemma single_line_snoc (cur : string) (c : ascii) :
  single_line cur = true -> is_linebreak c = false ->
  single_line (cur ++ String c "")%string = true.
Proof.
  unfold single_line. induction cur as [| d cur IH]; simpl; intros H Hc.
  - rewrite Hc. reflexivity.
  - apply andb_true_iff in H. destruct H as [Hd H].
    rewrite Hd. simpl. apply IH; assumption.
Qed.

Lemma splitlines_from_single_line (n : nat) :
  forall s cur, String.length s <= n -> single_line cur = true ->
    Forall (fun x => single_line x = true) (splitlines_from cur s).
Proof.
  induction n as [| n IH]; intros s cur Hn Hcur.
  - destruct s; [| simpl in Hn; lia]. simpl.
    destruct (String.eqb cur ""); repeat constructor. exact Hcur.
  - destruct s as [| c rest].
    + simpl. destruct (String.eqb cur ""); repeat constructor. exact Hcur.
    + rewrite splitlines_from_step. simpl in Hn.
      destruct (is_linebreak c) eqn:Hc.
      * constructor; [exact Hcur |]. apply IH; [| reflexivity].
        pose proof (after_break_length c rest). lia.
      * apply IH; [lia |]. apply single_line_snoc; assumption.
Qed.

(** X17.  Every item of a restock submission is one of the lines of the
    text, holds no line boundary, and holds a character other than
    whitespace; in particular no item is empty. *)
Theorem restock_items_are_single_lines (text x : string) :
  In x (restock_items text) ->
  In x (splitlines text) /\
  single_line x = true /\
  blank x = false /\
  x <> ""%string.
Proof.
  intros Hx. apply restock_items_In in Hx. destruct Hx as [Hin Hb].
  split; [exact Hin |]. split; [| split; [exact Hb |]].
  - pose proof (splitlines_from_single_line (String.length text) text ""
                  (Nat.le_refl _) eq_refl) as H.
    rewrite Forall_forall in H. apply H. exact Hin.
  - intros ->. discriminate.
Qed.

Lemma restock_items_are_single_lines_witness :
  In "KEY2"%string (restock_items example_form_text) /\
  single_line "KEY2" = true /\
  blank "KEY2" = false.
Proof.
  assert (Hin : In "KEY2"%string (restock_items example_form_text))
    by (right; left; reflexivity).
  split; [exact Hin |].
  destruct (restock_items_are_single_lines example_form_text "KEY2" Hin)
    as [_ [Hs [Hb _]]].
  split; [exact Hs | exact Hb].
Defined.

Lemma string_app_snoc (cur : string) (c : ascii) (k : string) :
  ((cur ++ String c "") ++ k = cur ++ String c k)%string.
Proof.
  induction cur as [| d cur IH]; simpl; [reflexivity |].
  rewrite IH. reflexivity.
Qed.

Lemma string_app_empty (s : string) : (s ++ "" = s)%string.
Proof.
  induction s as [| c s IH]; simpl; [reflexivity | rewrite IH; reflexivity].
Qed.

Lemma splitlines_from_app (k : string) :
  single_line k = true ->
  forall cur s,
    splitlines_from cur (k ++ s)%string = splitlines_from (cur ++ k)%string s.
Proof.
  unfold single_line. induction k as [| c k IH]; intros H cur s.
  - rewrite string_app_empty. reflexivity.
  - simpl in H. apply andb_true_iff in H. destruct H as [Hc H].
    apply negb_true_iff in Hc.
    change (String c k ++ s)%string with (String c (k ++ s)%string).
    rewrite splitlines_from_step, Hc, IH by exact H.
    rewrite string_app_snoc. reflexivity.
Qed.

Lemma splitlines_from_newline (cur s : string) :
  splitlines_from cur (newline ++ s)%string = cur :: splitlines_from "" s.
Proof.
  unfold newline. simpl append. rewrite splitlines_from_step.
  destruct s; reflexivity.
Qed.

Lemma splitlines_concat (ks : list string) :
  Forall (fun k => single_line k = true /\ k <> ""%string) ks ->
  splitlines (String.concat newline ks) = ks.
Proof.
  unfold splitlines. induction 1 as [| k ks [Hk Hne] Hks IH]; [reflexivity |].
  destruct ks as [| k2 ks].
  - simpl. rewrite <- (string_app_empty k) at 1.
    rewrite splitlines_from_app by exact Hk. simpl.
    destruct (String.eqb_spec k ""); [contradiction | reflexivity].
  - change (String.concat newline (k :: k2 :: ks))
      with (k ++ newline ++ String.concat newline (k2 :: ks))%string.
    rewrite splitlines_from_app by exact Hk.
    rewrite splitlines_from_newline, IH. reflexivity.
Qed.

Lemma filter_all {A : Type} (f : A -> bool) (l : list A) :
  Forall (fun x => f x = true) l -> filter f l = l.
Proof.
  induction 1 as [| x l Hx _ IH]; simpl; [reflexivity |].
  rewrite Hx, IH. reflexivity.
Qed.

(** X18.  Keys joined by line feeds, the way [invoice] joins the
    deliverables of its preview, are recovered by the restock form as they
    were, in order, provided each key holds no line boundary and holds a
    character other than whitespace. *)
Theorem restock_items_of_joined_keys (ks : list string) :
  Forall (fun k => single_line k = true /\ blank k = false) ks ->
  restock_items (String.concat newline ks) = ks.
Proof.
  intros H. unfold restock_items. rewrite splitlines_concat.
  - apply filter_all. eapply Forall_impl; [| exact H].
    intros k [_ Hb]. rewrite strip_truth, Hb. reflexivity.
  - eapply Forall_impl; [| exact H]. intros k [Hs Hb].
    split; [exact Hs |]. intros ->. discriminate.
Qed.

Lemma restock_items_of_joined_keys_witness :
  Forall (fun k => single_line k = true /\ blank k = false)
         ["KEY-1"; " KEY 2 "; "KEY-3"]%string /\
  restock_items (String.concat newline ["KEY-1"; " KEY 2 "; "KEY-3"]) =
  ["KEY-1"; " KEY 2 "; "KEY-3"]%string.
Proof.
  assert (H : Forall (fun k => single_line k = true /\ blank k = false)
                     ["KEY-1"; " KEY 2 "; "KEY-3"]%string)
    by (repeat constructor).
  split; [exact H |].
  exact (restock_items_of_joined_keys _ H).
Defined.

(** ** The restock menus *)

Lemma plain_of_app (u w : ui_trace) :
  plain_of (u ++ w) = plain_of u ++ plain_of w.
Proof.
  induction u as [| e u IH]; simpl; [reflexivity |].
  destruct e; simpl; rewrite IH; reflexivity.
Qed.

Lemma skipn_length_app {A : Type} (l new : list A) :
  skipn (List.length l) (l ++ new) = new.
Proof. induction l as [| x l IH]; simpl; [reflexivity | exact IH]. Qed.

(** An awaited coroutine that adds [new] to the plain trace adds it, wrapped,
    to the trace of the menus. *)
Lemma call_run {A : Type} (c : M A) (u : ui_trace) (r : result A)
  (new : trace) :
  c (plain_of u) = (r, plain_of u ++ new) ->
  call c u = (r, u ++ map Plain new).
Proof.
  intros H. unfold call. rewrite H, skipn_length_app. reflexivity.
Qed.

Lemma select_option_ok (rt : runtime) (v : json) :
  has_name_and_id v -> select_option rt v = Ok (option_of rt v).
Proof.
  intros [[n Hn] [i Hi]].
  unfold select_option, option_of, record_name, variant_id.
  rewrite Hn, Hi. reflexivity.
Qed.

Lemma select_options_ok (rt : runtime) (l : list json) :
  Forall has_name_and_id l ->
  select_options rt (JArr l) = Ok (map (option_of rt) l).
Proof.
  intros H. unfold select_options. cbn [py_iter].
  apply comprehension_ok. eapply Forall_impl; [| exact H].
  intros v. apply select_option_ok.
Qed.

Section MenuRuns.

Variable rt : runtime.
Variable net : network.

Lemma call_list_products (u : ui_trace) :
  let rep := net (requests_of (plain_of u)) (products_request rt) in
  call (list_products rt net) u =
  ((if is_dict (body_of rep) then py_get (body_of rep) "data" (JArr [])
    else Ok (JArr [])),
   u ++ [Plain (Http (products_request rt) rep)]).
Proof.
  intros rep. apply (call_run _ u _ [Http (products_request rt) rep]).
  apply list_products_run.
Qed.

Lemma call_get_variants (pid : string) (u : ui_trace) :
  let rep := net (requests_of (plain_of u)) (product_request rt pid) in
  call (get_variants rt net pid) u =
  (variants_data rep, u ++ [Plain (Http (product_request rt pid) rep)]).
Proof.
  intros rep. apply (call_run _ u _ [Http (product_request rt pid) rep]).
  apply get_variants_run.
Qed.

Lemma submit_form_run (pid vid text : string) (u : ui_trace) :
  let req := append_request rt pid vid (restock_items text) in
  submit_form rt net pid vid text u =
  (Ok tt,
   u ++ [Plain (Http req (net (requests_of (plain_of u)) req));
         Plain (SendMessage
                  ("Added " ++ str_of_nat (List.length (restock_items text))
                   ++ " items")%string true)]).
Proof.
  intros req. unfold submit_form.
  apply (call_run _ u (Ok tt) [_; _]). apply on_submit_run.
Qed.

Lemma StockPanel_restock_run
  (u : ui_trace) (o : list (string * json)) (ps : list json) :
  let rep := net (requests_of (plain_of u)) (products_request rt) in
  body_of rep = JObj o ->
  lookup "data" o = Some (JArr ps) ->
  Forall has_name_and_id ps ->
  StockPanel_restock rt net u =
  (Ok tt,
   u ++ [Plain (Http (products_request rt) rep);
         SendView "Select Product" (ProductMenu (map (option_of rt) ps))
                  true]).
Proof.
  intros rep Hb Hd Hall. unfold StockPanel_restock, ubind.
  rewrite call_list_products. fold rep. rewrite Hb. simpl is_dict. cbv iota.
  cbn [py_get]. rewrite Hd. unfold ulift.
  rewrite (select_options_ok rt ps Hall). unfold uemit.
  rewrite <- app_assoc. reflexivity.
Qed.

Lemma ProductSelect_callback_run
  (pid : string) (u : ui_trace) (vs : list json) :
  let rep := net (requests_of (plain_of u)) (product_request rt pid) in
  variants_data rep = Ok (JArr vs) ->
  Forall has_name_and_id vs ->
  ProductSelect_callback rt net pid u =
  (Ok tt,
   u ++ [Plain (Http (product_request rt pid) rep);
         SendView "Select Variant" (VariantMenu pid (map (option_of rt) vs))
                  true]).
Proof.
  intros rep Hv Hall. unfold ProductSelect_callback, ubind.
  rewrite call_get_variants. fold rep. rewrite Hv. unfold ulift.
  rewrite (select_options_ok rt vs Hall). unfold uemit.
  rewrite <- app_assoc. reflexivity.
Qed.

(** X19.  When the body lists records that each have a name and an id, the
    Restock button sends, after one GET, the message "Select Product" with
    a menu of one option per product, in order: the label is the product's
    name and the value is its id as text. *)
Theorem restock_menu_lists_products
  (u : ui_trace) (o : list (string * json)) (ps : list json) :
  let rep := net (requests_of (plain_of u)) (products_request rt) in
  body_of rep = JObj o ->
  lookup "data" o = Some (JArr ps) ->
  Forall has_name_and_id ps ->
  exists options,
    StockPanel_restock rt net u =
    (Ok tt,
     u ++ [Plain (Http (products_request rt) rep);
           SendView "Select Product" (ProductMenu options) true]) /\
    map label options = map record_name ps /\
    map option_value options = map (fun p => py_str rt (variant_id p)) ps.
Proof.
  intros rep Hb Hd Hall. exists (map (option_of rt) ps).
  split; [exact (StockPanel_restock_run u o ps Hb Hd Hall) |].
  rewrite !map_map. split; reflexivity.
Qed.

(** X20.  When the listing fails, by a body that is not a JSON object or
    by one without [data], the Restock button still sends "Select Product",
    with a menu that has no option; it has no message of its own for an
    empty catalogue. *)
Theorem restock_menu_empty_on_failed_listing (u : ui_trace) :
  let rep := net (requests_of (plain_of u)) (products_request rt) in
  is_dict (body_of rep) = false \/
  (exists o, body_of rep = JObj o /\ lookup "data" o = None) ->
  StockPanel_restock rt net u =
  (Ok tt,
   u ++ [Plain (Http (products_request rt) rep);
         SendView "Select Product" (ProductMenu []) true]).
Proof.
  intros rep H. unfold StockPanel_restock, ubind.
  rewrite call_list_products. fold rep.
  destruct H as [H | [o [Ho H]]].
  - rewrite H. unfold ulift, uemit. simpl. rewrite <- app_assoc.
    reflexivity.
  - rewrite Ho. simpl is_dict. cbv iota. cbn [py_get]. rewrite H.
    unfold ulift, uemit. simpl. rewrite <- app_assoc. reflexivity.
Qed.

(** X21.  Picking a product fetches it and sends "Select Variant" with a
    menu bound to that product, one option per variant in order, labelled
    with the variant's name and valued with its id as text. *)
Theorem product_pick_lists_variants
  (pid : string) (u : ui_trace) (vs : list json) :
  let rep := net (requests_of (plain_of u)) (product_request rt pid) in
  variants_data rep = Ok (JArr vs) ->
  Forall has_name_and_id vs ->
  exists options,
    ProductSelect_callback rt net pid u =
    (Ok tt,
     u ++ [Plain (Http (product_request rt pid) rep);
           SendView "Select Variant" (VariantMenu pid options) true]) /\
    map label options = map record_name vs /\
    map option_value options = map (fun v => py_str rt (variant_id v)) vs.
Proof.
  intros rep Hv Hall. exists (map (option_of rt) vs).
  split; [exact (ProductSelect_callback_run pid u vs Hv Hall) |].
  rewrite !map_map. split; reflexivity.
Qed.

(** X22.  When the product response has a body that is not a JSON object,
    picking a product raises [AttributeError] after the GET and sends
    nothing: no menu, no message. *)
Theorem product_pick_fails_on_bad_body (pid : string) (u : ui_trace) :
  let rep := net (requests_of (plain_of u)) (product_request rt pid) in
  is_dict (body_of rep) = false ->
  ProductSelect_callback rt net pid u =
  (Raise AttributeError, u ++ [Plain (Http (product_request rt pid) rep)]).
Proof.
  intros rep H. unfold ProductSelect_callback, ubind.
  rewrite call_get_variants. fold rep.
  rewrite (variants_data_bad_body rep H). reflexivity.
Qed.

End MenuRuns.

(** X23.  The restock flow end to end, against a server whose answers
    depend on the request alone: the button lists the products, the value
    picked for product [p] fetches that product and lists its variants, the
    value picked for variant [v] opens the form, and the submitted text is
    appended with one PUT to the deliverables-append endpoint of exactly
    that product and that variant; both picks are values the menus
    offered. *)
Theorem restock_flow_reaches_picked_variant
  (rt : runtime) (respond : request -> reply)
  (o : list (string * json)) (ps vs : list json) (p v : json)
  (text : string) :
  let pid := py_str rt (variant_id p) in
  let vid := py_str rt (variant_id v) in
  let put := append_request rt pid vid (restock_items text) in
  body_of (respond (products_request rt)) = JObj o ->
  lookup "data" o = Some (JArr ps) ->
  Forall has_name_and_id ps ->
  In p ps ->
  variants_data (respond (product_request rt pid)) = Ok (JArr vs) ->
  Forall has_name_and_id vs ->
  In v vs ->
  restock_flow rt (stateless respond) pid vid text [] =
  (Ok tt,
   [Plain (Http (products_request rt) (respond (products_request rt)));
    SendView "Select Product" (ProductMenu (map (option_of rt) ps)) true;
    Plain (Http (product_request rt pid) (respond (product_request rt pid)));
    SendView "Select Variant" (VariantMenu pid (map (option_of rt) vs)) true;
    SendModal pid vid;
    Plain (Http put (respond put));
    Plain (SendMessage
             ("Added " ++ str_of_nat (List.length (restock_items text))
              ++ " items")%string true)]) /\
  In pid (map option_value (map (option_of rt) ps)) /\
  In vid (map option_value (map (option_of rt) vs)).
Proof.
  intros pid vid put Hb Hd Hps Hp Hv Hvs Hin.
  split; [| split].
  - unfold restock_flow. unfold ubind at 1.
    rewrite (StockPanel_restock_run rt (stateless respond) [] o ps
               Hb Hd Hps).
    unfold ubind at 1.
    rewrite (ProductSelect_callback_run rt (stateless respond) pid _ vs
               Hv Hvs).
    unfold ubind at 1. unfold VariantSelect_callback, uemit.
    rewrite submit_form_run. reflexivity.
  - rewrite map_map.
    apply (in_map (fun x => option_value (option_of rt x)) ps p Hp).
  - rewrite map_map.
    apply (in_map (fun x => option_value (option_of rt x)) vs v Hin).
Qed.

Lemma restock_menu_lists_products_witness :
  body_of (listing catalogue) = JObj [("data", JArr catalogue)] /\
  exists options,
    StockPanel_restock sample_runtime (answering (listing catalogue)) [] =
    (Ok tt,
     [Plain (Http (products_request sample_runtime) (listing catalogue));
      SendView "Select Product" (ProductMenu options) true]) /\
    map label options = [JStr "Game"; JStr "Card"] /\
    map option_value options = ["7"; "8"]%string.
Proof.
  split; [reflexivity |].
  apply (restock_menu_lists_products sample_runtime
           (answering (listing catalogue)) []
           [("data", JArr catalogue)] catalogue).
  - reflexivity.
  - reflexivity.
  - repeat constructor; eexists; reflexivity.
Defined.

Lemma restock_menu_empty_on_failed_listing_witness :
  is_dict (body_of bare_ok) = false /\
  StockPanel_restock sample_runtime (answering bare_ok) [] =
  (Ok tt,
   [Plain (Http (products_request sample_runtime) bare_ok);
    SendView "Select Product" (ProductMenu []) true]).
Proof.
  split; [reflexivity |].
  apply (restock_menu_empty_on_failed_listing sample_runtime
           (answering bare_ok) []).
  left. reflexivity.
Defined.

Lemma product_pick_lists_variants_witness :
  variants_data (flow_shop (product_request sample_runtime "7")) =
  Ok (JArr flow_variants) /\
  exists options,
    ProductSelect_callback sample_runtime (stateless flow_shop) "7" [] =
    (Ok tt,
     [Plain (Http (product_request sample_runtime "7")
                  (flow_shop (product_request sample_runtime "7")));
      SendView "Select Variant" (VariantMenu "7" options) true]) /\
    map label options = [JStr "Standard"; JStr "Deluxe"] /\
    map option_value options = ["1"; "2"]%string.
Proof.
  split; [reflexivity |].
  apply (product_pick_lists_variants sample_runtime (stateless flow_shop)
           "7" [] flow_variants).
  - reflexivity.
  - repeat constructor; eexists; reflexivity.
Defined.

Lemma product_pick_fails_on_bad_body_witness :
  is_dict (body_of bare_ok) = false /\
  ProductSelect_callback sample_runtime (answering bare_ok) "7" [] =
  (Raise AttributeError,
   [Plain (Http (product_request sample_runtime "7") bare_ok)]).
Proof.
  split; [reflexivity |].
  apply (product_pick_fails_on_bad_body sample_runtime
           (answering bare_ok) "7" []).
  reflexivity.
Defined.

Lemma restock_flow_reaches_picked_variant_witness :
  In (named 7 "Game") catalogue /\
  In (named 2 "Deluxe") flow_variants /\
  fst (restock_flow sample_runtime (stateless flow_shop) "7" "2"
         example_form_text []) = Ok tt /\
  map url
      (requests_of
         (plain_of
            (snd (restock_flow sample_runtime (stateless flow_shop) "7" "2"
                    example_form_text [])))) =
  ["https://api.sellauth.com/v1/shops/42/products";
   "https://api.sellauth.com/v1/shops/42/products/7";
   "https://api.sellauth.com/v1/shops/42/products/7/deliverables/append/2"]
  %string.
Proof.
  assert (Hp : In (named 7 "Game") catalogue) by (left; reflexivity).
  assert (Hv : In (named 2 "Deluxe") flow_variants)
    by (right; left; reflexivity).
  split; [exact Hp |]. split; [exact Hv |].
  destruct (restock_flow_reaches_picked_variant sample_runtime flow_shop
              [("data", JArr catalogue)] catalogue flow_variants
              (named 7 "Game") (named 2 "Deluxe") example_form_text)
    as [Hrun _].
  - reflexivity.
  - reflexivity.
  - repeat constructor; eexists; reflexivity.
  - exact Hp.
  - reflexivity.
  - repeat constructor; eexists; reflexivity.
  - exact Hv.
  - change (py_str sample_runtime (variant_id (named 7 "Game")))
      with "7"%string in Hrun.
    change (py_str sample_runtime (variant_id (named 2 "Deluxe")))
      with "2"%string in Hrun.
    rewrite Hrun. split; reflexivity.
Defined.
